(** * Bus Pirate AUX pin handler ([Firmware/aux_pin.c])

    A shallow embedding of the PWM generator, the servo driver and the
    frequency counter of the Bus Pirate firmware, and the properties its
    specification states about them.

    The firmware runs on a 16-bit PIC24: [unsigned int] and [uint16_t] are
    16 bits wide, [uint32_t] is 32 bits, [unsigned long long] is 64 bits.
    Integers are modelled as [Z] with the wrap-around of each C type written
    out at the places where the C code converts or may overflow. *)

From Stdlib Require Import ZArith List Bool Lia Ascii String.
From Stdlib Require Import Floats.SpecFloat.
Import ListNotations.
Local Open Scope Z_scope.

(** ** Machine integers *)

Definition wrap (bits x : Z) : Z := x mod 2 ^ bits.

Definition to_uint16 : Z -> Z := wrap 16.
Definition to_uint32 : Z -> Z := wrap 32.
Definition to_uint64 : Z -> Z := wrap 64.

(** ** Floating point

    [float] is IEEE-754 binary32.  The width of [double] is a build option
    of the PIC24 tool chain (32 or 64 bits), so it is a field of the build
    target below.  Operations round to nearest, ties to even, as specified
    by [SpecFloat]. *)

Module IEEE.

Record format : Set := { prec : Z; emax : Z }.

Definition binary32 : format := {| prec := 24; emax := 128 |}.
Definition binary64 : format := {| prec := 53; emax := 1024 |}.

Definition of_Z (fmt : format) (n : Z) : spec_float :=
  binary_normalize (prec fmt) (emax fmt) n 0 false.

Definition div (fmt : format) : spec_float -> spec_float -> spec_float :=
  SFdiv (prec fmt) (emax fmt).
Definition mul (fmt : format) : spec_float -> spec_float -> spec_float :=
  SFmul (prec fmt) (emax fmt).
Definition add (fmt : format) : spec_float -> spec_float -> spec_float :=
  SFadd (prec fmt) (emax fmt).

Definition ltb : spec_float -> spec_float -> bool := SFltb.

(** Conversion to an integer type discards the fractional part.  C leaves
    the conversion of a value that is not finite undefined; the model
    yields 0 there. *)
Definition truncate (x : spec_float) : Z :=
  match x with
  | S754_finite s m e =>
      let magnitude :=
        if 0 <=? e then Z.pos m * 2 ^ e else Z.pos m / 2 ^ (- e) in
      if s then - magnitude else magnitude
  | _ => 0
  end.

(** Conversion to an unsigned type of [bits] bits.  A value outside the
    range of the type is undefined in C; the model wraps it. *)
Definition to_unsigned (bits : Z) (x : spec_float) : Z :=
  wrap bits (truncate x).

End IEEE.

(** ** Special function registers

    Whole registers are cells holding a 16-bit word.  The bits of [T2CON]
    and [T4CON] that the code accesses one at a time are addressed by their
    position in the word; the fields of the peripheral-pin-select and
    interrupt-flag registers, which the code only ever accesses as fields,
    are cells of their own. *)

Inductive reg : Set :=
  | T2CON | T4CON | OC5CON
  | PR2 | PR3 | PR4 | PR5
  | TMR2 | TMR3HLD | TMR4 | TMR5HLD
  | OC5R | OC5RS
  | AUXPIN_RPOUT            (* RPOR10bits.RP20R *)
  | AUXPIN_DIR              (* TRISDbits.TRISD5 *)
  | RPINR3bits_T2CKR
  | RPINR7bits_IC1R | RPINR7bits_IC2R
  | IFS1bits_T5IF | IFS0bits_IC1IF | IFS0bits_IC2IF
  | IC1CON | IC2CON
  | IC1CON1 | IC1CON2 | IC2CON1 | IC2CON2.

Scheme Equality for reg.

(** Bit positions in the timer control words:
    [T2CON = 0b111010; //(TCKPS1|TCKPS0|T32|TCS)]. *)
Definition TON : Z := 15.
Definition TCKPS1 : Z := 5.
Definition TCKPS0 : Z := 4.
Definition T32 : Z := 3.
Definition TCS : Z := 1.

Definition ON : bool := true.
Definition OFF : bool := false.
Definition YES : bool := true.

Definition Z_of_bit (b : bool) : Z := if b then 1 else 0.

(** Assignment to a one-bit field of a register word. *)
Definition assign_bit (word position : Z) (b : bool) : Z :=
  if b then Z.setbit word position else Z.clearbit word position.

(** The input clock prescaler selected by a timer control word. *)
Definition prescale_ratio (control : Z) : Z :=
  match Z.testbit control TCKPS1, Z.testbit control TCKPS0 with
  | true, true => 256
  | true, false => 64
  | false, true => 8
  | false, false => 1
  end.

(** ** AUX pin state *)

Inductive aux_mode_t : Set :=
  | AUX_MODE_IO
  | AUX_MODE_FREQUENCY
  | AUX_MODE_PWM.

Scheme Equality for aux_mode_t.

Record aux_state_t : Set := {
  pwm_frequency : Z;
  pwm_duty_cycle : Z;
  mode : aux_mode_t
}.

(** [static aux_state_t state = {0};] *)
Definition initial_state : aux_state_t :=
  {| pwm_frequency := 0; pwm_duty_cycle := 0; mode := AUX_MODE_IO |}.

(** ** Terminal output

    The message catalogue and the number printers live in other files of
    the firmware.  The model records what this file hands to them. *)

Inductive message : Set :=
  | BPMSG1028 | BPMSG1029 | BPMSG1030 | BPMSG1033 | BPMSG1034
  | BPMSG1037 | BPMSG1038 | BPMSG1245 | BPMSG1254 | BPMSG1255
  | MSG_PWM_HZ_MARKER | MSG_PWM_FREQUENCY_TOO_LOW | bpBR.

Inductive output : Set :=
  | Message (msg : message)
  | UART1TX (c : ascii)
  | bp_write_dec_dword_friendly (value : Z)
  | bp_write_dec_dword (value : Z)
  | bp_write_dec_word (value : Z)
  | bp_write_dec_byte (value : Z).

(** Modelled from the spec: the number printers are not in this file.  They
    print the value in decimal without padding, [bp_write_dec_dword_friendly]
    with commas between groups of three digits; [UART1TX] sends one
    character.  The text of the fixed messages is not expanded. *)

Definition digit (d : Z) : ascii := ascii_of_nat (48 + Z.to_nat d).

Fixpoint decimal_onto (fuel : nat) (n : Z) (tail : list ascii)
    : list ascii :=
  match fuel with
  | O => tail
  | S fuel' =>
      let tail' := digit (n mod 10) :: tail in
      if n <? 10 then tail' else decimal_onto fuel' (n / 10) tail'
  end.

Definition decimal (n : Z) : list ascii := decimal_onto 20 n [].

Fixpoint commas (reversed : list ascii) : list ascii :=
  match reversed with
  | a :: b :: c :: (_ :: _) as more => a :: b :: c :: ","%char :: commas more
  | _ => reversed
  end.

Definition decimal_friendly (n : Z) : list ascii :=
  rev (commas (rev (decimal n))).

Definition printed (o : output) : list ascii :=
  match o with
  | Message _ => []
  | UART1TX c => [c]
  | bp_write_dec_dword_friendly value => decimal_friendly value
  | bp_write_dec_dword value => decimal value
  | bp_write_dec_word value => decimal value
  | bp_write_dec_byte value => decimal value
  end.

Definition text (os : list output) : string :=
  string_of_list_ascii (flat_map printed os).

(** What is sent after the decimal point. *)
Fixpoint after_point (os : list output) : option (list output) :=
  match os with
  | [] => None
  | UART1TX c :: rest =>
      if Ascii.eqb c "."%char then Some rest else after_point rest
  | _ :: rest => after_point rest
  end.

(** The number of characters printed after the decimal point. *)
Definition decimal_places (os : list output) : option nat :=
  option_map (fun rest => List.length (flat_map printed rest)) (after_point os).

(** The pins that can serve as the AUX pin, and the messages of the
    functions that drive them directly. *)
Inductive pin : Set := AUX0 | CS | AUX1 | AUX2.

Scheme Equality for pin.

Inductive pin_message : Set := BPMSG1039 | BPMSG1040 | BPMSG1041.

(** ** The signal on the AUX pin

    What the timers and the input capture units observe is an input of the
    model.  [one_second_window k control] is the pair [(TMR3HLD, TMR2)]
    found when the [k]-th one-second window closes, the counting timer
    having run under the control word [control].  [input_capture k] is the
    [k]-th pair [(IC1BUF, IC2BUF)] latched after the capture buffers were
    flushed; [None] when no further edge ever arrives. *)

Record signal : Type := {
  one_second_window : nat -> Z -> Z * Z;
  input_capture : nat -> option (Z * Z)
}.

(** ** Command line and prompts

    [cmdbuf], [cmdstart], [CMDLENMSK], [command_error] and the parsing and
    prompting routines belong to the command interpreter.  They act on the
    interpreter's own data; [state] is [static] in [aux_pin.c] and out of
    their reach. *)

Class Console : Type := {
  console : Type;
  CMDLENMSK : Z;
  cmdbuf : console -> Z -> Z;
  cmdstart : console -> Z;
  set_cmdstart : Z -> console -> console;
  command_error : console -> bool;
  set_command_error : bool -> console -> console;
  consumewhitechars : console -> console;
  getint : console -> Z * console;
  getnumber : Z -> Z -> Z -> Z -> console -> Z * console
}.

(** ** Build target: board revision, pin numbers and the width of [double] *)

Class Target : Type := {
  BUSPIRATEV4 : bool;
  BP_AUX_RPIN : Z;
  OC5_IO : Z;
  double : IEEE.format
}.

Section Firmware.

Context {con : Console} {target : Target}.

Definition AUXPIN_RPIN : Z := BP_AUX_RPIN.

Record machine : Type := {
  state : aux_state_t;
  regs : reg -> Z;
  tty : console;
  terminal : list output;
  aux_signal : signal;
  windows : nat;
  captures : nat
}.

(** *** Sequencing

    A routine maps the machine to its result and the machine it leaves
    behind, or to [None] when it never returns. *)

Definition M (A : Type) : Type := machine -> option (A * machine).

Definition ret {A} (a : A) : M A := fun m => Some (a, m).

Definition bind {A B} (c : M A) (k : A -> M B) : M B :=
  fun m => match c m with
           | Some (a, m') => k a m'
           | None => None
           end.

Definition blocked {A} : M A := fun _ => None.

Definition when (b : bool) (c : M unit) : M unit :=
  if b then c else ret tt.

Notation "x <- c1 ;; c2" := (bind c1 (fun x => c2))
  (at level 61, c1 at next level, right associativity).
Notation "c1 ;; c2" := (bind c1 (fun _ => c2))
  (at level 61, right associativity).

Definition with_state (s : aux_state_t) (m : machine) : machine :=
  {| state := s; regs := regs m; tty := tty m; terminal := terminal m;
     aux_signal := aux_signal m; windows := windows m;
     captures := captures m |}.

Definition with_regs (r : reg -> Z) (m : machine) : machine :=
  {| state := state m; regs := r; tty := tty m; terminal := terminal m;
     aux_signal := aux_signal m; windows := windows m;
     captures := captures m |}.

Definition with_tty (c : console) (m : machine) : machine :=
  {| state := state m; regs := regs m; tty := c; terminal := terminal m;
     aux_signal := aux_signal m; windows := windows m;
     captures := captures m |}.

Definition with_terminal (t : list output) (m : machine) : machine :=
  {| state := state m; regs := regs m; tty := tty m; terminal := t;
     aux_signal := aux_signal m; windows := windows m;
     captures := captures m |}.

Definition with_windows (n : nat) (m : machine) : machine :=
  {| state := state m; regs := regs m; tty := tty m;
     terminal := terminal m; aux_signal := aux_signal m; windows := n;
     captures := captures m |}.

Definition with_captures (n : nat) (m : machine) : machine :=
  {| state := state m; regs := regs m; tty := tty m;
     terminal := terminal m; aux_signal := aux_signal m;
     windows := windows m; captures := n |}.

(** *** Register access *)

Definition update (r : reg) (v : Z) (f : reg -> Z) : reg -> Z :=
  fun r' => if reg_beq r r' then v else f r'.

Definition read (r : reg) : M Z := fun m => Some (regs m r, m).

Definition write (r : reg) (v : Z) : M unit :=
  fun m => Some (tt, with_regs (update r v (regs m)) m).

Definition write_bit (r : reg) (position : Z) (b : bool) : M unit :=
  fun m =>
    Some (tt, with_regs (update r (assign_bit (regs m r) position b) (regs m))
                m).

(** *** The [state] variable *)

Definition get_mode : M aux_mode_t := fun m => Some (mode (state m), m).

Definition get_pwm_frequency : M Z :=
  fun m => Some (pwm_frequency (state m), m).

Definition set_mode (v : aux_mode_t) : M unit :=
  fun m =>
    Some (tt, with_state {| pwm_frequency := pwm_frequency (state m);
                            pwm_duty_cycle := pwm_duty_cycle (state m);
                            mode := v |} m).

Definition set_pwm_frequency (v : Z) : M unit :=
  fun m =>
    Some (tt, with_state {| pwm_frequency := v;
                            pwm_duty_cycle := pwm_duty_cycle (state m);
                            mode := mode (state m) |} m).

Definition set_pwm_duty_cycle (v : Z) : M unit :=
  fun m =>
    Some (tt, with_state {| pwm_frequency := pwm_frequency (state m);
                            pwm_duty_cycle := v;
                            mode := mode (state m) |} m).

(** *** Terminal and command line *)

Definition emit (o : output) : M unit :=
  fun m => Some (tt, with_terminal (terminal m ++ [o]) m).

Definition say (msg : message) : M unit := emit (Message msg).

Definition on_console {A} (f : console -> A * console) : M A :=
  fun m => let (a, c) := f (tty m) in Some (a, with_tty c m).

Definition peek_console {A} (f : console -> A) : M A :=
  fun m => Some (f (tty m), m).

Definition poke_console (f : console -> console) : M unit :=
  fun m => Some (tt, with_tty (f (tty m)) m).

(** *** PWM generator *)

Definition PWM_DIVISOR_PRESCALER_1_256 : Z := 62.
Definition PWM_DIVISOR_PRESCALER_1_64 : Z := 250.
Definition PWM_DIVISOR_PRESCALER_1_8 : Z := 2000.
Definition PWM_DIVISOR_PRESCALER_1_1 : Z := 16000.

Definition setup_prescaler_divisor (frequency : Z) : M Z :=
  if frequency <? 4 then
    write_bit T2CON TCKPS1 ON ;;
    write_bit T2CON TCKPS0 ON ;;
    ret PWM_DIVISOR_PRESCALER_1_256
  else if frequency <? 31 then
    write_bit T2CON TCKPS1 ON ;;
    write_bit T2CON TCKPS0 OFF ;;
    ret PWM_DIVISOR_PRESCALER_1_64
  else if frequency <? 245 then
    write_bit T2CON TCKPS1 OFF ;;
    write_bit T2CON TCKPS0 ON ;;
    ret PWM_DIVISOR_PRESCALER_1_8
  else
    write_bit T2CON TCKPS1 OFF ;;
    write_bit T2CON TCKPS0 OFF ;;
    ret PWM_DIVISOR_PRESCALER_1_1.

(** [frequency] and [duty_cycle] are [uint16_t] arguments.  The
    arithmetic on [period] and [cycle] is 16-bit unsigned arithmetic. *)
Definition bp_update_pwm (frequency duty_cycle : Z) : M unit :=
  set_pwm_frequency frequency ;;
  set_pwm_duty_cycle duty_cycle ;;
  write T2CON 0 ;;
  write T4CON 0 ;;
  write OC5CON 0 ;;
  if frequency =? 0 then
    write AUXPIN_RPOUT 0 ;;
    set_mode AUX_MODE_IO
  else
    divisor <- setup_prescaler_divisor frequency ;;
    let period := to_uint16 (divisor / frequency - 1) in
    write PR2 period ;;
    let cycle := to_uint16 (period * duty_cycle) / 100 in
    write AUXPIN_RPOUT OC5_IO ;;
    write OC5R cycle ;;
    write OC5RS cycle ;;
    write OC5CON 0x06 ;;
    write_bit T2CON TON ON ;;
    set_mode AUX_MODE_PWM.

Definition bp_update_duty_cycle (duty_cycle : Z) : M unit :=
  frequency <- get_pwm_frequency ;;
  bp_update_pwm frequency duty_cycle.

(** The interactive PWM command.  [PWM_freq], [PWM_div], [PWM_period] and
    [PWM_dutycycle] are [unsigned int]; [PWM_pd] is a [float].  Where
    [PWM_freq] is 0 the C division is undefined and the model follows
    [Z.div]; a console whose [getnumber] honours its bounds never gets
    there. *)
Definition bp_pwm_setup : M unit :=
  let program : M unit :=
    let done := 0 in
    poke_console (fun c => set_cmdstart (Z.land (cmdstart c + 1) CMDLENMSK) c) ;;
    poke_console consumewhitechars ;;
    PWM_freq <- on_console getint ;;
    let PWM_freq := to_uint16 PWM_freq in
    poke_console consumewhitechars ;;
    PWM_pd <- on_console getint ;;
    let PWM_pd := IEEE.of_Z IEEE.binary32 PWM_pd in
    let done :=
      if (0 <? PWM_freq) && (PWM_freq <? 4000) then done + 1 else done in
    let done :=
      if IEEE.ltb (IEEE.of_Z IEEE.binary32 0) PWM_pd
         && IEEE.ltb PWM_pd (IEEE.of_Z IEEE.binary32 100)
      then done + 1 else done in
    PWM_freq <-
      (if negb (done =? 2) then
         poke_console (set_command_error false) ;;
         say BPMSG1029 ;;
         say BPMSG1030 ;;
         v <- on_console (getnumber 50 1 4000 0) ;;
         ret (to_uint16 v)
       else ret PWM_freq) ;;
    PWM_div <- setup_prescaler_divisor PWM_freq ;;
    let PWM_period := to_uint16 (PWM_div / PWM_freq - 1) in
    PWM_pd <-
      (if negb (done =? 2) then
         say BPMSG1033 ;;
         v <- on_console (getnumber 50 0 99 0) ;;
         ret (IEEE.of_Z IEEE.binary32 v)
       else ret PWM_pd) ;;
    let PWM_pd :=
      IEEE.div IEEE.binary32 PWM_pd (IEEE.of_Z IEEE.binary32 100) in
    let PWM_dutycycle :=
      IEEE.to_unsigned 16
        (IEEE.mul IEEE.binary32 (IEEE.of_Z IEEE.binary32 PWM_period)
           PWM_pd) in
    write AUXPIN_RPOUT OC5_IO ;;
    write OC5R PWM_dutycycle ;;
    write OC5RS PWM_dutycycle ;;
    write OC5CON 0x6 ;;
    write PR2 PWM_period ;;
    write_bit T2CON TON ON ;;
    say BPMSG1034 ;;
    set_mode AUX_MODE_PWM in
  write T2CON 0 ;;
  write T4CON 0 ;;
  write OC5CON 0 ;;
  mode <- get_mode ;;
  match mode with
  | AUX_MODE_PWM =>
      write AUXPIN_RPOUT 0 ;;
      say BPMSG1028 ;;
      set_mode AUX_MODE_IO ;;
      next <- peek_console
                (fun c => cmdbuf c (Z.land (cmdstart c + 1) CMDLENMSK)) ;;
      if next =? 0x00 then ret tt else program
  | _ => program
  end.

(** *** Frequency counter *)

(** [while (IFS1bits.T5IF == 0) {}]: timer 4 runs from the instruction
    clock and raises its flag one second after it was started.  By then
    timer 2 has counted the edges of the AUX signal; of the registers the
    hardware changes meanwhile, the model updates those the code reads
    back. *)
Definition await_T5IF : M unit :=
  fun m =>
    let '(high, low) :=
      one_second_window (aux_signal m) (windows m) (regs m T2CON) in
    Some (tt,
          with_windows (S (windows m))
            (with_regs
               (update IFS1bits_T5IF 1
                  (update TMR3HLD (to_uint16 high)
                     (update TMR2 (to_uint16 low) (regs m)))) m)).

Definition poll_frequency_counter_value : M Z :=
  write PR3 0xFFFF ;;
  write PR2 0xFFFF ;;
  write TMR3HLD 0 ;;
  write TMR2 0 ;;
  write TMR5HLD 0 ;;
  write TMR4 0 ;;
  write_bit T4CON T32 YES ;;
  write PR5 0x00F4 ;;
  write PR4 0x2400 ;;
  write IFS1bits_T5IF (Z_of_bit OFF) ;;
  write_bit T4CON TON ON ;;
  write_bit T2CON TON ON ;;
  await_T5IF ;;
  write_bit T2CON TON OFF ;;
  write_bit T4CON TON OFF ;;
  counter_low <- read TMR2 ;;
  counter_high <- read TMR3HLD ;;
  ret (to_uint32 (to_uint32 (Z.shiftl counter_high 16) + counter_low)).

(** Field positions of the input capture control words, as drawn in the
    comments of [average_sample_frequency]. *)
Definition _ICxCON_ICM_POSITION : Z := 0.
Definition _ICxCON_ICI_POSITION : Z := 5.
Definition _ICxCON_ICTMR_POSITION : Z := 7.
Definition _ICxCON_ICSIDL_POSITION : Z := 13.
Definition _ICxCON1_ICTSEL_POSITION : Z := 10.
Definition _ICxCON2_SYNCSEL_POSITION : Z := 0.
Definition _ICxCON2_TRIGSTAT_POSITION : Z := 6.
Definition _ICxCON2_ICTRIG_POSITION : Z := 7.
Definition _ICxCON2_IC32_POSITION : Z := 8.

Definition field (value position : Z) : Z := Z.shiftl value position.

(** [while (ICxICBNE == ON) { ... = ICxBUF; }]: drains what the capture
    buffer held before the measurement.  The captures of [input_capture]
    are those latched afterwards. *)
Definition flush_capture_buffer : M unit := ret tt.

(** [while (IC1ICBNE == OFF) {}] followed by the reads of [IC1BUF] and
    [IC2BUF].  Never returns when the signal has no further edge. *)
Definition await_capture : M (Z * Z) :=
  fun m =>
    match input_capture (aux_signal m) (captures m) with
    | Some (ic1buf, ic2buf) =>
        Some ((to_uint16 ic1buf, to_uint16 ic2buf),
              with_captures (S (captures m)) m)
    | None => None
    end.

(** The [for] loop of [average_sample_frequency]; [remaining] is
    [count - index]. *)
Fixpoint sample_periods (remaining : nat)
    (counter_low counter_high total_samples : Z) : M Z :=
  match remaining with
  | O => ret total_samples
  | S remaining' =>
      capture <- await_capture ;;
      let current_low := fst capture in
      let current_high := snd capture in
      let total_samples :=
        to_uint32
          (total_samples
           + to_uint32
               (to_uint32
                  (Z.shiftl (to_uint32 (current_high - counter_high)) 16)
                + to_uint32 (current_low - counter_low))) in
      sample_periods remaining' current_low current_high total_samples
  end.

(** [count] is a [uint16_t] argument; the callers in this file pass a
    non-zero count. *)
Definition average_sample_frequency (count : Z) : M Z :=
  write IFS0bits_IC2IF (Z_of_bit OFF) ;;
  write IFS0bits_IC1IF (Z_of_bit OFF) ;;
  write RPINR7bits_IC2R AUXPIN_RPIN ;;
  write RPINR7bits_IC1R AUXPIN_RPIN ;;
  (if BUSPIRATEV4 then
     write TMR5HLD 0x0000 ;;
     write TMR4 0x0000 ;;
     write T4CON (Z.lor (field (Z_of_bit ON) TON) (field (Z_of_bit ON) T32)) ;;
     write IC2CON1
       (Z.lor (Z.lor (Z.lor (field 3 _ICxCON_ICM_POSITION)
                        (field 0 _ICxCON_ICI_POSITION))
                 (field 3 _ICxCON1_ICTSEL_POSITION))
          (field (Z_of_bit OFF) _ICxCON_ICSIDL_POSITION)) ;;
     write IC2CON2
       (Z.lor (Z.lor (Z.lor (field 20 _ICxCON2_SYNCSEL_POSITION)
                        (field (Z_of_bit OFF) _ICxCON2_TRIGSTAT_POSITION))
                 (field (Z_of_bit OFF) _ICxCON2_ICTRIG_POSITION))
          (field (Z_of_bit OFF) _ICxCON2_IC32_POSITION)) ;;
     write IC1CON1
       (Z.lor (Z.lor (Z.lor (field 3 _ICxCON_ICM_POSITION)
                        (field 0 _ICxCON_ICI_POSITION))
                 (field 2 _ICxCON1_ICTSEL_POSITION))
          (field (Z_of_bit OFF) _ICxCON_ICSIDL_POSITION)) ;;
     write IC1CON2
       (Z.lor (Z.lor (Z.lor (field 20 _ICxCON2_SYNCSEL_POSITION)
                        (field (Z_of_bit OFF) _ICxCON2_TRIGSTAT_POSITION))
                 (field (Z_of_bit OFF) _ICxCON2_ICTRIG_POSITION))
          (field (Z_of_bit OFF) _ICxCON2_IC32_POSITION))
   else
     write TMR3HLD 0x0000 ;;
     write TMR2 0x0000 ;;
     write T2CON (Z.lor (field (Z_of_bit ON) TON) (field (Z_of_bit ON) T32)) ;;
     write IC2CON
       (Z.lor (Z.lor (Z.lor (field 3 _ICxCON_ICM_POSITION)
                        (field 0 _ICxCON_ICI_POSITION))
                 (field (Z_of_bit OFF) _ICxCON_ICTMR_POSITION))
          (field (Z_of_bit OFF) _ICxCON_ICSIDL_POSITION)) ;;
     write IC1CON
       (Z.lor (Z.lor (Z.lor (field 3 _ICxCON_ICM_POSITION)
                        (field 0 _ICxCON_ICI_POSITION))
                 (field (Z_of_bit ON) _ICxCON_ICTMR_POSITION))
          (field (Z_of_bit OFF) _ICxCON_ICSIDL_POSITION))) ;;
  flush_capture_buffer ;;
  flush_capture_buffer ;;
  first <- await_capture ;;
  let counter_low := fst first in
  let counter_high := snd first in
  total_samples <-
    sample_periods (Z.to_nat count) counter_low counter_high 0 ;;
  (if BUSPIRATEV4 then
     write IC1CON1 0x0000 ;;
     write IC2CON1 0x0000 ;;
     write_bit T4CON TON OFF
   else
     write IC1CON 0x0000 ;;
     write IC2CON 0x0000 ;;
     write_bit T2CON TON OFF) ;;
  ret (total_samples / count).

(** The five resolution tiers of the period measurement; [p] and [f] are
    [unsigned long long], the quotient is computed in [double] and
    converted back. *)
Definition report_period (p : Z) : M unit :=
  let quotient (scale : Z) : Z :=
    IEEE.to_unsigned 64
      (IEEE.div double (IEEE.of_Z double scale) (IEEE.of_Z double p)) in
  if 400000 <? p then
    let f := quotient 1600000000000 in        (* 16e11 / p *)
    emit (bp_write_dec_dword_friendly (f / 100000)) ;;
    emit (UART1TX ".") ;;
    let f := f mod 100000 in
    when (f <? 10000) (emit (UART1TX "0")) ;;
    when (f <? 1000) (emit (UART1TX "0")) ;;
    when (f <? 100) (emit (UART1TX "0")) ;;
    when (f <? 10) (emit (UART1TX "0")) ;;
    emit (bp_write_dec_dword f)
  else if 126491 <? p then
    let f := quotient 160000000000 in         (* 16e10 / p *)
    emit (bp_write_dec_dword_friendly (f / 10000)) ;;
    emit (UART1TX ".") ;;
    let f := f mod 10000 in
    when (f <? 1000) (emit (UART1TX "0")) ;;
    when (f <? 100) (emit (UART1TX "0")) ;;
    when (f <? 10) (emit (UART1TX "0")) ;;
    emit (bp_write_dec_word f)
  else if 40000 <? p then
    let f := quotient 16000000000 in          (* 16e9 / p *)
    emit (bp_write_dec_dword_friendly (f / 1000)) ;;
    emit (UART1TX ".") ;;
    let f := f mod 1000 in
    when (f <? 100) (emit (UART1TX "0")) ;;
    when (f <? 10) (emit (UART1TX "0")) ;;
    emit (bp_write_dec_word f)
  else if 12649 <? p then
    let f := quotient 1600000000 in           (* 16e8 / p *)
    emit (bp_write_dec_dword_friendly (f / 100)) ;;
    emit (UART1TX ".") ;;
    let f := f mod 100 in
    when (f <? 10) (emit (UART1TX "0")) ;;
    emit (bp_write_dec_byte f)
  else
    let f := quotient 160000000 in            (* 16e7 / p *)
    emit (bp_write_dec_dword_friendly (f / 10)) ;;
    emit (UART1TX ".") ;;
    let f := f mod 10 in
    emit (bp_write_dec_byte f).

(** [bp_frequency_counter_setup] from the first message to the end of the
    autorange decision; the result is [f], an [unsigned long long]. *)
Definition frequency_counter_autorange : M Z :=
  say BPMSG1038 ;;
  write T4CON 0 ;;
  write T2CON 0 ;;
  write AUXPIN_DIR 1 ;;
  write RPINR3bits_T2CKR AUXPIN_RPIN ;;
  write T2CON 0x3A ;;                         (* 0b111010 *)
  f <- poll_frequency_counter_value ;;
  if 0x3fff <? f then
    ret (to_uint64 (f * 256))
  else
    say BPMSG1245 ;;
    write T2CON 0x0A ;;                       (* 0b001010 *)
    poll_frequency_counter_value.

(** [bp_frequency_counter_setup] from the resolution switch on [f] to the
    last message. *)
Definition frequency_counter_report (f : Z) : M unit :=
  if 3999 <? f then
    emit (bp_write_dec_dword_friendly f) ;;
    say MSG_PWM_HZ_MARKER
  else if 0 <? f then
    say BPMSG1245 ;;
    p <- average_sample_frequency (to_uint16 f) ;;
    report_period p ;;
    say MSG_PWM_HZ_MARKER
  else
    say MSG_PWM_FREQUENCY_TOO_LOW.

(** The last three statements of [bp_frequency_counter_setup]. *)
Definition frequency_counter_release : M unit :=
  write RPINR3bits_T2CKR 0x1F ;;              (* 0b11111 *)
  write T4CON 0 ;;
  write T2CON 0.

Definition bp_frequency_counter_setup : M unit :=
  mode <- get_mode ;;
  match mode with
  | AUX_MODE_PWM => say BPMSG1037
  | _ =>
      f <- frequency_counter_autorange ;;
      frequency_counter_report f ;;
      frequency_counter_release
  end.

(** The non-interactive frequency measurement.  [frequency] is a
    [uint32_t], so the product with 256 is taken modulo 2^32.  [INPUT] is
    the direction value that [bp_frequency_counter_setup] writes as 1. *)
Definition INPUT : bool := true.

Definition bp_measure_frequency : M Z :=
  write T4CON 0x0000 ;;
  write T2CON 0x0000 ;;
  write AUXPIN_DIR (Z_of_bit INPUT) ;;
  write RPINR3bits_T2CKR AUXPIN_RPIN ;;
  write T2CON
    (Z.lor (Z.lor (Z.lor (field (Z_of_bit ON) TCS) (field (Z_of_bit ON) T32))
              (field (Z_of_bit ON) TCKPS0))
       (field (Z_of_bit ON) TCKPS1)) ;;
  frequency <- poll_frequency_counter_value ;;
  frequency <-
    (if 0xFF <? frequency then
       ret (to_uint32 (frequency * 256))
     else
       write_bit T2CON TCKPS0 OFF ;;
       write_bit T2CON TCKPS1 OFF ;;
       poll_frequency_counter_value) ;;
  write RPINR3bits_T2CKR 0x1F ;;              (* 0b011111 *)
  write T4CON 0x0000 ;;
  write T2CON 0x0000 ;;
  ret frequency.

(** *** Digital access to the AUX pins

    [mode_configuration.alternate_aux] selects the pin; it belongs to the
    mode configuration and is only read here, so it is an argument, as is
    the build flag [BUSPIRATEV3].  [BP_AUX0_DIR] is the register
    [AUXPIN_DIR] of the timer code; the direction bits of the other pins,
    the output levels and the three messages of these functions are kept
    beside the machine.  [OUTPUT] and [LOW] are 0, [HIGH] is 1. *)

Definition OUTPUT : bool := false.
Definition HIGH : bool := true.
Definition LOW : bool := false.

Record board : Type := {
  core : machine;
  direction : pin -> bool;
  level : pin -> bool;
  notices : list pin_message
}.

Definition pin_direction (b : board) (p : pin) : Z :=
  match p with
  | AUX0 => regs (core b) AUXPIN_DIR
  | _ => Z_of_bit (direction b p)
  end.

Definition set_direction (p : pin) (v : bool) (b : board) : board :=
  match p with
  | AUX0 =>
      {| core := with_regs (update AUXPIN_DIR (Z_of_bit v) (regs (core b)))
                   (core b);
         direction := direction b; level := level b;
         notices := notices b |}
  | _ =>
      {| core := core b;
         direction := fun q => if pin_beq p q then v else direction b q;
         level := level b; notices := notices b |}
  end.

Definition set_level (p : pin) (v : bool) (b : board) : board :=
  {| core := core b; direction := direction b;
     level := fun q => if pin_beq p q then v else level b q;
     notices := notices b |}.

Definition notify (msg : pin_message) (b : board) : board :=
  {| core := core b; direction := direction b; level := level b;
     notices := notices b ++ [msg] |}.

Definition bp_aux_pin_set_high_impedance
    (BUSPIRATEV3 : bool) (alternate_aux : Z) (b : board) : board :=
  let b :=
    if BUSPIRATEV3 then
      if alternate_aux =? 0 then set_direction AUX0 INPUT b
      else set_direction CS INPUT b
    else
      match alternate_aux with
      | 0 => set_direction AUX0 INPUT b
      | 1 => set_direction CS INPUT b
      | 2 => set_direction AUX1 INPUT b
      | 3 => set_direction AUX2 INPUT b
      | _ => b
      end in
  notify BPMSG1039 b.

Definition bp_aux_pin_set_high
    (BUSPIRATEV3 : bool) (alternate_aux : Z) (b : board) : board :=
  let b :=
    if BUSPIRATEV3 then
      if alternate_aux =? 0 then
        set_level AUX0 HIGH (set_direction AUX0 OUTPUT b)
      else set_level CS HIGH (set_direction CS OUTPUT b)
    else
      match alternate_aux with
      | 0 => set_level AUX0 HIGH (set_direction AUX0 OUTPUT b)
      | 1 => set_level CS HIGH (set_direction CS OUTPUT b)
      | 2 => set_level AUX1 HIGH (set_direction AUX1 OUTPUT b)
      | 3 => set_level AUX2 HIGH (set_direction AUX2 OUTPUT b)
      | _ => b
      end in
  notify BPMSG1040 b.

Definition bp_aux_pin_set_low
    (BUSPIRATEV3 : bool) (alternate_aux : Z) (b : board) : board :=
  let b :=
    if BUSPIRATEV3 then
      if alternate_aux =? 0 then
        set_level AUX0 LOW (set_direction AUX0 OUTPUT b)
      else set_level CS LOW (set_direction CS OUTPUT b)
    else
      match alternate_aux with
      | 0 => set_level AUX0 LOW (set_direction AUX0 OUTPUT b)
      | 1 => set_level CS LOW (set_direction CS OUTPUT b)
      | 2 => set_level AUX1 LOW (set_direction AUX1 OUTPUT b)
      | 3 => set_level AUX2 LOW (set_direction AUX2 OUTPUT b)
      | _ => b
      end in
  notify BPMSG1041 b.

(** [line p] is the level found on pin [p] once it is an input, two
    [Nop()] after the direction was switched. *)
Definition bp_aux_pin_read
    (BUSPIRATEV3 : bool) (alternate_aux : Z) (line : pin -> bool)
    (b : board) : bool * board :=
  if BUSPIRATEV3 then
    if alternate_aux =? 0 then (line AUX0, set_direction AUX0 INPUT b)
    else (line CS, set_direction CS INPUT b)
  else
    match Z.land alternate_aux 3 with
    | 0 => (line AUX0, set_direction AUX0 INPUT b)
    | 1 => (line CS, set_direction CS INPUT b)
    | 2 => (line AUX1, set_direction AUX1 INPUT b)
    | 3 => (line AUX2, set_direction AUX2 INPUT b)
    | _ => (LOW, b)
    end.

(** The pin that the three writing functions address, if any. *)
Definition addressed (BUSPIRATEV3 : bool) (alternate_aux : Z) : option pin :=
  if BUSPIRATEV3 then
    if alternate_aux =? 0 then Some AUX0 else Some CS
  else
    match alternate_aux with
    | 0 => Some AUX0
    | 1 => Some CS
    | 2 => Some AUX1
    | 3 => Some AUX2
    | _ => None
    end.

(** Two boards that differ at most in the directions and levels of the
    pins and in what was sent to the terminal: the AUX state, the command
    line and every register but [AUXPIN_DIR] agree. *)
Definition same_timers (b b' : board) : Prop :=
  state (core b') = state (core b)
  /\ tty (core b') = tty (core b)
  /\ forall r, r <> AUXPIN_DIR -> regs (core b') r = regs (core b) r.

(** *** Servo driver *)

(** The code from the label [servoset:] to the end of [bp_servo_setup].
    [fuel] bounds the number of passes through the label; running out of it
    stands for a session that goes on. *)
Fixpoint servoset (fuel : nat) (entryloop : bool) (PWM_pd : spec_float)
    : M unit :=
  match fuel with
  | O => blocked
  | S fuel' =>
      write_bit T2CON TCKPS1 true ;;
      write_bit T2CON TCKPS0 true ;;
      let PWM_period := 1250 in
      let PWM_pd :=
        IEEE.div IEEE.binary32 PWM_pd (IEEE.of_Z IEEE.binary32 3500) in
      let PWM_dutycycle :=
        IEEE.to_unsigned 16
          (IEEE.add IEEE.binary32
             (IEEE.mul IEEE.binary32 (IEEE.of_Z IEEE.binary32 PWM_period)
                PWM_pd)
             (IEEE.of_Z IEEE.binary32 62)) in
      write AUXPIN_RPOUT OC5_IO ;;
      write OC5R PWM_dutycycle ;;
      write OC5RS PWM_dutycycle ;;
      write OC5CON 0x6 ;;
      write PR2 PWM_period ;;
      write_bit T2CON TON ON ;;
      say BPMSG1255 ;;
      set_mode AUX_MODE_PWM ;;
      if entryloop then
        v <- on_console (getnumber (-1) 0 180 1) ;;
        let PWM_pd := IEEE.of_Z IEEE.binary32 v in
        if IEEE.ltb PWM_pd (IEEE.of_Z IEEE.binary32 0) then say bpBR
        else servoset fuel' entryloop PWM_pd
      else ret tt
  end.

Definition bp_servo_setup (fuel : nat) : M unit :=
  let program : M unit :=
    poke_console (fun c => set_cmdstart (Z.land (cmdstart c + 1) CMDLENMSK) c) ;;
    poke_console consumewhitechars ;;
    PWM_pd <- on_console getint ;;
    let PWM_pd := IEEE.of_Z IEEE.binary32 PWM_pd in
    error <- peek_console command_error ;;
    if error || IEEE.ltb (IEEE.of_Z IEEE.binary32 180) PWM_pd then
      poke_console (set_command_error false) ;;
      say BPMSG1254 ;;
      v <- on_console (getnumber 90 0 180 0) ;;
      servoset fuel true (IEEE.of_Z IEEE.binary32 v)
    else servoset fuel false PWM_pd in
  write T2CON 0 ;;
  write T4CON 0 ;;
  write OC5CON 0 ;;
  mode <- get_mode ;;
  match mode with
  | AUX_MODE_PWM =>
      next <- peek_console
                (fun c => cmdbuf c (Z.land (cmdstart c + 1) CMDLENMSK)) ;;
      if next =? 0x00 then
        write AUXPIN_RPOUT 0 ;;
        say BPMSG1028 ;;
        set_mode AUX_MODE_IO
      else program
  | _ => program
  end.

(** *** Observations used in the statements *)

(** A routine that always returns and leaves the recorded PWM frequency and
    duty cycle as it found them. *)
Definition keeps_pwm_settings {A} (c : M A) : Prop :=
  forall m, exists a m',
    c m = Some (a, m')
    /\ pwm_frequency (state m') = pwm_frequency (state m)
    /\ pwm_duty_cycle (state m') = pwm_duty_cycle (state m).

(** What [servoset] computes for [PWM_dutycycle] when [PWM_pd] holds the
    integer [angle]. *)
Definition servo_on_time (angle : Z) : Z :=
  IEEE.to_unsigned 16
    (IEEE.add IEEE.binary32
       (IEEE.mul IEEE.binary32 (IEEE.of_Z IEEE.binary32 1250)
          (IEEE.div IEEE.binary32 (IEEE.of_Z IEEE.binary32 angle)
             (IEEE.of_Z IEEE.binary32 3500)))
       (IEEE.of_Z IEEE.binary32 62)).

(** What [bp_pwm_setup] computes for [PWM_dutycycle] when [PWM_pd] holds
    the integer [percent]. *)
Definition pwm_setup_on_time (PWM_period percent : Z) : Z :=
  IEEE.to_unsigned 16
    (IEEE.mul IEEE.binary32 (IEEE.of_Z IEEE.binary32 PWM_period)
       (IEEE.div IEEE.binary32 (IEEE.of_Z IEEE.binary32 percent)
          (IEEE.of_Z IEEE.binary32 100))).

(** The 32-bit timer value latched by the [k]-th capture: [IC2BUF] holds
    the high word, [IC1BUF] the low word. *)
Definition capture_time (s : signal) (k : nat) : option Z :=
  match input_capture s k with
  | Some (ic1buf, ic2buf) => Some (to_uint16 ic2buf * 65536 + to_uint16 ic1buf)
  | None => None
  end.

(** The 32-bit edge count read back after the [k]-th one-second window. *)
Definition window_count (s : signal) (k : nat) (control : Z) : Z :=
  let '(high, low) := one_second_window s k control in
  to_uint16 high * 65536 + to_uint16 low.

End Firmware.

(** ** Test benches

    A console fed from a list of numbers, the two board revisions, and a
    periodic signal, for running the firmware on concrete inputs. *)

Record script : Type := {
  pending : list Z;
  position : Z;
  failed : bool
}.

Definition clamp (lowest highest v : Z) : Z :=
  if v <? lowest then lowest else if highest <? v then highest else v.

Definition scripted_console : Console := {|
  console := script;
  CMDLENMSK := 0xFF;
  cmdbuf := fun c _ => match pending c with [] => 0 | _ => 48 end;
  cmdstart := position;
  set_cmdstart := fun v c =>
    {| pending := pending c; position := v; failed := failed c |};
  command_error := failed;
  set_command_error := fun b c =>
    {| pending := pending c; position := position c; failed := b |};
  consumewhitechars := fun c => c;
  getint := fun c =>
    match pending c with
    | [] => (0, {| pending := []; position := position c; failed := true |})
    | v :: rest =>
        (v, {| pending := rest; position := position c + 1;
               failed := failed c |})
    end;
  getnumber := fun default lowest highest negative c =>
    match pending c with
    | [] => (default, c)
    | v :: rest =>
        (if negb (negative =? 0) && (v <? 0) then v
         else clamp lowest highest v,
         {| pending := rest; position := position c; failed := failed c |})
    end
|}.

Definition typed (numbers : list Z) : script :=
  {| pending := numbers; position := 0; failed := false |}.

Definition bus_pirate_v3 : Target :=
  {| BUSPIRATEV4 := false; BP_AUX_RPIN := 20; OC5_IO := 22;
     double := IEEE.binary32 |}.

Definition bus_pirate_v4 : Target :=
  {| BUSPIRATEV4 := true; BP_AUX_RPIN := 20; OC5_IO := 22;
     double := IEEE.binary64 |}.

(** A signal whose one-second windows count [coarse] edges under the 1:256
    prescaler and [fine] edges without it, and whose rising edges are
    [period] timer ticks apart. *)
Definition periodic (coarse fine period : Z) : signal :=
  {| one_second_window := fun _ control =>
       let count := if prescale_ratio control =? 256 then coarse else fine in
       (count / 65536, count mod 65536);
     input_capture := fun k =>
       let ticks := Z.of_nat k * period in
       Some (ticks mod 65536, ticks / 65536) |}.

Definition power_on {con : Console} (c : console) (s : signal) : machine :=
  {| state := initial_state; regs := fun _ => 0; tty := c; terminal := [];
     aux_signal := s; windows := 0; captures := 0 |}.

(** The bench machine: the scripted console with [numbers] waiting, the
    AUX pin on the signal [s], everything else as after power-on. *)
Definition bench (numbers : list Z) (s : signal)
    : @machine scripted_console :=
  @power_on scripted_console (typed numbers) s.

(** The machine a routine leaves behind; the machine it started from when
    it does not return. *)
Definition after {con : Console} {A : Type} (c : M A) (m : machine)
    : machine :=
  match c m with
  | Some (_, m') => m'
  | None => m
  end.

(** The result of a routine, when it returns. *)
Definition result {con : Console} {A : Type} (c : M A) (m : machine)
    : option A :=
  option_map fst (c m).

(** The bench machine with PWM running at 1000 Hz, 50%. *)
Definition bench_pwm (numbers : list Z) (s : signal)
    : @machine scripted_console :=
  after (@bp_update_pwm scripted_console bus_pirate_v3 1000 50)
    (bench numbers s).

(** The signal [s] cut off after its first [n] captures. *)
Definition stops_after (n : nat) (s : signal) : signal :=
  {| one_second_window := one_second_window s;
     input_capture := fun k =>
       if (k <? n)%nat then input_capture s k else None |}.

(** The bench machine with every pin an input at level low and no pin
    message sent. *)
Definition bench_board (numbers : list Z) (s : signal)
    : @board scripted_console :=
  {| core := bench numbers s;
     direction := fun _ => true;
     level := fun _ => false;
     notices := [] |}.

(** * Properties *)

Section Properties.

Context {con : Console} {target : Target}.

Notation "x <- c1 ;; c2" := (bind c1 (fun x => c2))
  (at level 61, c1 at next level, right associativity).
Notation "c1 ;; c2" := (bind c1 (fun _ => c2))
  (at level 61, right associativity).

(** ** Bits and words *)

Lemma testbit_assign_bit (word position k : Z) (b : bool) :
  0 <= position ->
  Z.testbit (assign_bit word position b) k =
  if position =? k then b else Z.testbit word k.
Proof.
  intros Hpos. unfold assign_bit. destruct b.
  - rewrite Z.setbit_eqb by assumption.
    destruct (position =? k); reflexivity.
  - rewrite Z.clearbit_eqb.
    destruct (position =? k); simpl.
    + apply andb_false_r.
    + apply andb_true_r.
Qed.

Lemma testbit_assign_bit_off (word position : Z) :
  Z.testbit (assign_bit word position OFF) position = false.
Proof. unfold assign_bit, OFF. apply Z.clearbit_eq. Qed.

Lemma testbit_assign_bit_on (word position : Z) :
  0 <= position ->
  Z.testbit (assign_bit word position ON) position = true.
Proof. intros Hpos. unfold assign_bit, ON. apply Z.setbit_eq. exact Hpos. Qed.

Lemma prescale_ratio_assigned (word : Z) (b1 b0 : bool) :
  prescale_ratio (assign_bit (assign_bit word TCKPS1 b1) TCKPS0 b0) =
  match b1, b0 with
  | true, true => 256
  | true, false => 64
  | false, true => 8
  | false, false => 1
  end.
Proof.
  unfold prescale_ratio.
  rewrite !testbit_assign_bit by (unfold TCKPS1, TCKPS0; lia).
  reflexivity.
Qed.

Lemma wrap_small (bits x : Z) : 0 <= x < 2 ^ bits -> wrap bits x = x.
Proof. intros H. unfold wrap. apply Z.mod_small. exact H. Qed.

(** Unfolds the sequencing and the state accessors of a routine applied to
    a machine. *)
Ltac step :=
  cbv beta iota zeta delta
    [bind ret when blocked read write write_bit emit say get_mode
     get_pwm_frequency set_mode set_pwm_frequency set_pwm_duty_cycle
     on_console peek_console poke_console
     with_state with_regs with_tty with_terminal with_windows with_captures
     state regs tty terminal aux_signal windows captures
     pwm_frequency pwm_duty_cycle mode update reg_beq].

(** ** PWM generator *)

Lemma setup_prescaler_divisor_tiers_aux (frequency : Z) (m : machine) :
  exists m',
    setup_prescaler_divisor frequency m =
    Some (if frequency <? 4 then 62
          else if frequency <? 31 then 250
          else if frequency <? 245 then 2000 else 16000, m').
Proof.
  unfold setup_prescaler_divisor.
  destruct (frequency <? 4);
    [| destruct (frequency <? 31); [| destruct (frequency <? 245)]];
    step; eexists; reflexivity.
Qed.

(** C1.  For every frequency in (0, 4000), [setup_prescaler_divisor]
    returns 62 and selects the 1:256 prescaler when the frequency is below
    4, returns 250 and selects 1:64 from 4 up to 30, returns 2000 and
    selects 1:8 from 31 up to 244, and returns 16000 and selects 1:1 from
    245 on.  It touches nothing but the timer 2 control word. *)
Theorem setup_prescaler_divisor_tiers (frequency : Z) (m : machine) :
  0 < frequency < 4000 ->
  exists divisor m',
    setup_prescaler_divisor frequency m = Some (divisor, m')
    /\ (frequency < 4 ->
        divisor = 62 /\ prescale_ratio (regs m' T2CON) = 256)
    /\ (4 <= frequency < 31 ->
        divisor = 250 /\ prescale_ratio (regs m' T2CON) = 64)
    /\ (31 <= frequency < 245 ->
        divisor = 2000 /\ prescale_ratio (regs m' T2CON) = 8)
    /\ (245 <= frequency ->
        divisor = 16000 /\ prescale_ratio (regs m' T2CON) = 1)
    /\ state m' = state m
    /\ (forall r, r <> T2CON -> regs m' r = regs m r).
Proof.
  intros Hrange. unfold setup_prescaler_divisor.
  destruct (Z.ltb_spec frequency 4);
    [| destruct (Z.ltb_spec frequency 31);
       [| destruct (Z.ltb_spec frequency 245)]];
    step; do 2 eexists; (split; [reflexivity |]); step;
    (repeat split; try lia; try apply prescale_ratio_assigned);
    intros r Hr; destruct r; congruence.
Qed.

(** The tier of the prescaler as a function of the frequency, for stating
    what [bp_update_pwm] leaves in the registers. *)
Lemma bp_update_pwm_nonzero (frequency duty_cycle : Z) (m : machine) :
  frequency <> 0 ->
  exists divisor period m',
    bp_update_pwm frequency duty_cycle m = Some (tt, m')
    /\ divisor = (if frequency <? 4 then 62
                  else if frequency <? 31 then 250
                  else if frequency <? 245 then 2000 else 16000)
    /\ period = to_uint16 (divisor / frequency - 1)
    /\ state m' = {| pwm_frequency := frequency;
                     pwm_duty_cycle := duty_cycle;
                     mode := AUX_MODE_PWM |}
    /\ regs m' PR2 = period
    /\ regs m' OC5R = to_uint16 (period * duty_cycle) / 100
    /\ regs m' OC5RS = to_uint16 (period * duty_cycle) / 100
    /\ regs m' AUXPIN_RPOUT = OC5_IO.
Proof.
  intros Hnz. unfold bp_update_pwm, setup_prescaler_divisor.
  apply Z.eqb_neq in Hnz.
  destruct (frequency <? 4);
    [| destruct (frequency <? 31); [| destruct (frequency <? 245)]];
    step; rewrite Hnz; step; do 3 eexists;
    (split; [reflexivity |]); step; repeat split.
Qed.

Lemma bp_update_pwm_running (frequency duty_cycle : Z) (m : machine) :
  frequency <> 0 ->
  exists m',
    bp_update_pwm frequency duty_cycle m = Some (tt, m')
    /\ Z.testbit (regs m' T2CON) TON = true
    /\ regs m' PR2 =
       to_uint16 ((if frequency <? 4 then 62
                   else if frequency <? 31 then 250
                   else if frequency <? 245 then 2000 else 16000)
                  / frequency - 1)
    /\ state m' = {| pwm_frequency := frequency;
                     pwm_duty_cycle := duty_cycle;
                     mode := AUX_MODE_PWM |}
    /\ regs m' AUXPIN_RPOUT = OC5_IO.
Proof.
  intros Hnz. unfold bp_update_pwm, setup_prescaler_divisor.
  apply Z.eqb_neq in Hnz.
  destruct (frequency <? 4);
    [| destruct (frequency <? 31); [| destruct (frequency <? 245)]];
    step; rewrite Hnz; step; eexists;
    (split; [reflexivity |]); step;
    (split; [apply testbit_assign_bit_on; unfold TON; lia |]); repeat split.
Qed.

Lemma bp_update_pwm_zero (duty_cycle : Z) (m : machine) :
  exists m',
    bp_update_pwm 0 duty_cycle m = Some (tt, m')
    /\ state m' = {| pwm_frequency := 0;
                     pwm_duty_cycle := duty_cycle;
                     mode := AUX_MODE_IO |}
    /\ regs m' AUXPIN_RPOUT = 0
    /\ regs m' T2CON = 0
    /\ regs m' OC5CON = 0.
Proof.
  unfold bp_update_pwm. step. eexists. split; [reflexivity |].
  step. repeat split.
Qed.

(** For a frequency in (0, 4000) the period register value lies between 3
    and 64, so that neither the subtraction nor the product with a duty
    cycle of at most 99 leaves the 16-bit range. *)
Lemma pwm_period_range (frequency : Z) :
  0 < frequency < 4000 ->
  3 <= (if frequency <? 4 then 62
        else if frequency <? 31 then 250
        else if frequency <? 245 then 2000 else 16000) / frequency - 1 <= 64.
Proof.
  intros H.
  destruct (Z.ltb_spec frequency 4);
    [| destruct (Z.ltb_spec frequency 31);
       [| destruct (Z.ltb_spec frequency 245)]];
    (split;
     [ apply Z.le_add_le_sub_r; apply Z.div_le_lower_bound; lia
     | apply Z.le_sub_le_add_r; apply Z.lt_succ_r;
       apply Z.div_lt_upper_bound; lia ]).
Qed.

(** C2.  For every frequency in (0, 4000) and duty cycle in [0, 99],
    [bp_update_pwm] loads the period register with the divisor of the
    prescaler tier divided by the frequency, less one, and both compare
    registers with the period times the duty cycle divided by 100, both
    divisions truncating.  For 1000 Hz at 50% the divisor is 16000, the
    period 15 and the on-time 7. *)
Theorem bp_update_pwm_period_and_on_time
    (frequency duty_cycle : Z) (m : machine) :
  0 < frequency < 4000 ->
  0 <= duty_cycle <= 99 ->
  exists divisor m',
    bp_update_pwm frequency duty_cycle m = Some (tt, m')
    /\ (forall m0, option_map fst (setup_prescaler_divisor frequency m0)
                   = Some divisor)
    /\ regs m' PR2 = Z.quot divisor frequency - 1
    /\ regs m' OC5R = Z.quot (regs m' PR2 * duty_cycle) 100
    /\ regs m' OC5RS = Z.quot (regs m' PR2 * duty_cycle) 100
    /\ (frequency = 1000 -> duty_cycle = 50 ->
        divisor = 16000 /\ regs m' PR2 = 15 /\ regs m' OC5R = 7).
Proof.
  intros Hf Hd.
  destruct (bp_update_pwm_nonzero frequency duty_cycle m)
    as (divisor & period & m' & Hrun & Hdiv & Hper & _ & HPR2 & HOC5R
        & HOC5RS & _); [lia |].
  pose proof (pwm_period_range frequency Hf) as Hrange.
  rewrite <- Hdiv in Hrange.
  assert (Hperiod : period = divisor / frequency - 1).
  { rewrite Hper. apply wrap_small. lia. }
  assert (Hquot : Z.quot divisor frequency = divisor / frequency).
  { apply Z.quot_div_nonneg; [| lia].
    rewrite Hdiv.
    destruct (frequency <? 4); [| destruct (frequency <? 31);
      [| destruct (frequency <? 245)]]; lia. }
  assert (Hcycle : to_uint16 (period * duty_cycle) / 100
                   = Z.quot (period * duty_cycle) 100).
  { rewrite Z.quot_div_nonneg by nia.
    f_equal. apply wrap_small. nia. }
  exists divisor, m'. split; [exact Hrun |].
  split.
  { intros m0.
    destruct (setup_prescaler_divisor_tiers_aux frequency m0)
      as (m1 & Hsp). rewrite Hsp. simpl. f_equal. symmetry. exact Hdiv. }
  rewrite HPR2, HOC5R, HOC5RS, Hcycle, Hquot, <- Hperiod.
  do 3 (split; [reflexivity |]).
  intros Hf1000 Hd50. rewrite Hperiod, Hdiv, Hf1000, Hd50.
  repeat split.
Qed.

(** C3.  After PWM was programmed at any frequency in (0, 4000) and any
    duty cycle, [bp_update_pwm] with frequency 0 stops the timers, sets the
    pin routing register to zero, which detaches the output compare unit
    from the AUX pin, and leaves the mode at IO. *)
Theorem bp_update_pwm_zero_disables
    (frequency duty_cycle duty_cycle' : Z) (m : machine) :
  0 < frequency < 4000 ->
  exists m1 m2,
    bp_update_pwm frequency duty_cycle m = Some (tt, m1)
    /\ mode (state m1) = AUX_MODE_PWM
    /\ regs m1 AUXPIN_RPOUT = OC5_IO
    /\ bp_update_pwm 0 duty_cycle' m1 = Some (tt, m2)
    /\ mode (state m2) = AUX_MODE_IO
    /\ regs m2 AUXPIN_RPOUT = 0
    /\ regs m2 T2CON = 0
    /\ regs m2 OC5CON = 0.
Proof.
  intros Hf.
  destruct (bp_update_pwm_nonzero frequency duty_cycle m)
    as (divisor & period & m1 & Hrun1 & _ & _ & Hstate1 & _ & _ & _ & Hpin1);
    [lia |].
  destruct (bp_update_pwm_zero duty_cycle' m1)
    as (m2 & Hrun2 & Hstate2 & Hpin2 & Htimer2 & Hcompare2).
  exists m1, m2.
  rewrite Hstate1, Hstate2. simpl. auto 10.
Qed.

(** The programmatic path records its arguments: after [bp_update_pwm] at a
    frequency F in (0, 4000) and a duty cycle D in [0, 99], the recorded
    frequency and duty cycle are exactly F and D. *)
Theorem bp_update_pwm_round_trip (F D : Z) (m : machine) :
  0 < F < 4000 ->
  0 <= D <= 99 ->
  exists m',
    bp_update_pwm F D m = Some (tt, m')
    /\ pwm_frequency (state m') = F
    /\ pwm_duty_cycle (state m') = D.
Proof.
  intros HF HD.
  destruct (bp_update_pwm_nonzero F D m)
    as (divisor & period & m' & Hrun & _ & _ & Hstate & _); [lia |].
  exists m'. rewrite Hstate. simpl. auto.
Qed.

(** ** The interactive PWM command *)

Lemma keeps_ret {A} (a : A) : keeps_pwm_settings (ret a).
Proof. intros m. exists a, m. auto. Qed.

Lemma keeps_bind {A B} (c : M A) (k : A -> M B) :
  keeps_pwm_settings c ->
  (forall a, keeps_pwm_settings (k a)) ->
  keeps_pwm_settings (bind c k).
Proof.
  intros Hc Hk m.
  destruct (Hc m) as (a & m1 & Hrun1 & Hf1 & Hd1).
  destruct (Hk a m1) as (b & m2 & Hrun2 & Hf2 & Hd2).
  exists b, m2. unfold bind. rewrite Hrun1.
  split; [exact Hrun2 |]. split; congruence.
Qed.

Lemma keeps_write (r : reg) (v : Z) : keeps_pwm_settings (write r v).
Proof. intros m. do 2 eexists. split; [reflexivity |]. auto. Qed.

Lemma keeps_write_bit (r : reg) (position : Z) (b : bool) :
  keeps_pwm_settings (write_bit r position b).
Proof. intros m. do 2 eexists. split; [reflexivity |]. auto. Qed.

Lemma keeps_say (msg : message) : keeps_pwm_settings (say msg).
Proof. intros m. do 2 eexists. split; [reflexivity |]. auto. Qed.

Lemma keeps_get_mode : keeps_pwm_settings get_mode.
Proof. intros m. do 2 eexists. split; [reflexivity |]. auto. Qed.

Lemma keeps_set_mode (v : aux_mode_t) : keeps_pwm_settings (set_mode v).
Proof. intros m. do 2 eexists. split; [reflexivity |]. auto. Qed.

Lemma keeps_on_console {A} (f : console -> A * console) :
  keeps_pwm_settings (on_console f).
Proof.
  intros m. unfold on_console. destruct (f (tty m)) as [a c].
  do 2 eexists. split; [reflexivity |]. auto.
Qed.

Lemma keeps_peek_console {A} (f : console -> A) :
  keeps_pwm_settings (peek_console f).
Proof. intros m. do 2 eexists. split; [reflexivity |]. auto. Qed.

Lemma keeps_poke_console (f : console -> console) :
  keeps_pwm_settings (poke_console f).
Proof. intros m. do 2 eexists. split; [reflexivity |]. auto. Qed.

Create HintDb pwm_frame.
#[local] Hint Resolve keeps_ret keeps_write keeps_write_bit keeps_say
  keeps_get_mode keeps_set_mode keeps_on_console keeps_peek_console
  keeps_poke_console : pwm_frame.

(** Walks down a routine: sequencing by [keeps_bind], branches by cases,
    the leaves from the hint database. *)
Ltac frame :=
  repeat first
    [ solve [auto with pwm_frame]
    | apply keeps_bind; [| intros ?]
    | match goal with
      | |- keeps_pwm_settings (if ?b then _ else _) => destruct b
      | |- keeps_pwm_settings (match ?x with _ => _ end) => destruct x
      end ].

Lemma keeps_setup_prescaler_divisor (frequency : Z) :
  keeps_pwm_settings (setup_prescaler_divisor frequency).
Proof. unfold setup_prescaler_divisor. frame. Qed.

#[local] Hint Resolve keeps_setup_prescaler_divisor : pwm_frame.

Lemma keeps_bp_pwm_setup : keeps_pwm_settings bp_pwm_setup.
Proof. unfold bp_pwm_setup. cbv zeta. frame. Qed.

(** C10.  [bp_pwm_setup] always returns and never writes the recorded PWM
    frequency and duty cycle: both hold afterwards what they held before.
    A later [bp_update_duty_cycle] therefore runs [bp_update_pwm] with the
    frequency recorded before the command, whatever was entered. *)
Theorem bp_pwm_setup_keeps_pwm_settings (m : machine) :
  exists m',
    bp_pwm_setup m = Some (tt, m')
    /\ pwm_frequency (state m') = pwm_frequency (state m)
    /\ pwm_duty_cycle (state m') = pwm_duty_cycle (state m)
    /\ (forall duty_cycle,
          bp_update_duty_cycle duty_cycle m' =
          bp_update_pwm (pwm_frequency (state m)) duty_cycle m').
Proof.
  destruct (keeps_bp_pwm_setup m) as ([] & m' & Hrun & Hf & Hd).
  exists m'. repeat split; try assumption.
  intros duty_cycle. unfold bp_update_duty_cycle, get_pwm_frequency, bind.
  rewrite Hf. reflexivity.
Qed.

(** ** Frequency counter *)

(** C5.  Invoked while the mode is PWM, [bp_frequency_counter_setup] sends
    the PWM-conflict message [BPMSG1037] and returns: the AUX state, every
    register, the command line and the position in the input signal are
    what they were. *)
Theorem bp_frequency_counter_setup_refuses_during_pwm (m : machine) :
  mode (state m) = AUX_MODE_PWM ->
  exists m',
    bp_frequency_counter_setup m = Some (tt, m')
    /\ terminal m' = terminal m ++ [Message BPMSG1037]
    /\ state m' = state m
    /\ regs m' = regs m
    /\ tty m' = tty m
    /\ windows m' = windows m
    /\ captures m' = captures m.
Proof.
  intros Hmode. unfold bp_frequency_counter_setup, bind, get_mode.
  rewrite Hmode.
  eexists. split; [reflexivity |]. repeat split.
Qed.

Lemma combine_counter_words (high low : Z) :
  to_uint32 (to_uint32 (Z.shiftl (to_uint16 high) 16) + to_uint16 low)
  = to_uint16 high * 65536 + to_uint16 low.
Proof.
  assert (Hh : 0 <= to_uint16 high < 65536)
    by (apply Z.mod_pos_bound; reflexivity).
  assert (Hl : 0 <= to_uint16 low < 65536)
    by (apply Z.mod_pos_bound; reflexivity).
  rewrite Z.shiftl_mul_pow2 by lia.
  change (2 ^ 16) with 65536.
  unfold to_uint32.
  rewrite (wrap_small 32 (to_uint16 high * 65536))
    by (change (2 ^ 32) with 4294967296; lia).
  apply wrap_small. change (2 ^ 32) with 4294967296. lia.
Qed.

Lemma window_count_range (s : signal) (k : nat) (control : Z) :
  0 <= window_count s k control < 2 ^ 32.
Proof.
  unfold window_count. destruct (one_second_window s k control) as [high low].
  assert (Hh : 0 <= to_uint16 high < 65536)
    by (apply Z.mod_pos_bound; reflexivity).
  assert (Hl : 0 <= to_uint16 low < 65536)
    by (apply Z.mod_pos_bound; reflexivity).
  change (2 ^ 32) with 4294967296. lia.
Qed.

Lemma poll_frequency_counter_value_reads (m : machine) :
  exists m',
    poll_frequency_counter_value m =
    Some (window_count (aux_signal m) (windows m)
            (assign_bit (regs m T2CON) TON ON), m')
    /\ windows m' = S (windows m)
    /\ aux_signal m' = aux_signal m
    /\ captures m' = captures m
    /\ state m' = state m
    /\ tty m' = tty m
    /\ terminal m' = terminal m.
Proof.
  destruct m as [st rf c t s w k].
  unfold poll_frequency_counter_value, await_T5IF, window_count. step.
  destruct (one_second_window s w (assign_bit (rf T2CON) TON ON))
    as [high low].
  step. rewrite combine_counter_words.
  eexists. split; [reflexivity |]. repeat split.
Qed.

Ltac poll_step :=
  match goal with
  | |- context [poll_frequency_counter_value ?x] =>
      let m' := fresh "m" in
      let Hrun := fresh "Hrun" in
      let Hw := fresh "Hw" in
      let Hs := fresh "Hs" in
      let Hk := fresh "Hk" in
      let Hst := fresh "Hst" in
      let Hc := fresh "Hc" in
      let Ht := fresh "Ht" in
      destruct (poll_frequency_counter_value_reads x)
        as (m' & Hrun & Hw & Hs & Hk & Hst & Hc & Ht);
      destruct m';
      cbn [state regs tty terminal aux_signal windows captures]
        in Hrun, Hw, Hs, Hk, Hst, Hc, Ht;
      subst; rewrite Hrun; clear Hrun
  end.

Lemma frequency_counter_autorange_result (m : machine) :
  let coarse := window_count (aux_signal m) (windows m) 0x803A in
  let fine := window_count (aux_signal m) (S (windows m)) 0x800A in
  exists m1,
    frequency_counter_autorange m =
    Some (if 0x3fff <? coarse then coarse * 256 else fine, m1)
    /\ windows m1 =
       (if 0x3fff <? coarse then S (windows m) else S (S (windows m)))
    /\ terminal m1 =
       terminal m ++
       (if 0x3fff <? coarse then [Message BPMSG1038]
        else [Message BPMSG1038; Message BPMSG1245])
    /\ aux_signal m1 = aux_signal m
    /\ captures m1 = captures m
    /\ state m1 = state m
    /\ tty m1 = tty m.
Proof.
  intros coarse fine. subst coarse fine.
  destruct m as [st rf c t s w k].
  unfold frequency_counter_autorange. step.
  poll_step.
  change (assign_bit 58 TON ON) with 0x803A.
  cbn [aux_signal windows terminal captures state tty].
  destruct (0x3fff <? window_count s w 0x803A) eqn:Hcoarse.
  - step. eexists. split.
    + do 2 f_equal. apply wrap_small.
      pose proof (window_count_range s w 0x803A).
      change (2 ^ 64) with 18446744073709551616.
      change (2 ^ 32) with 4294967296 in *. lia.
    + repeat split.
  - step. poll_step.
    change (assign_bit 10 TON ON) with 0x800A.
    eexists. split; [reflexivity |].
    cbn [aux_signal windows terminal captures state tty].
    rewrite <- app_assoc. repeat split.
Qed.

Lemma bp_frequency_counter_setup_runs (m : machine) :
  mode (state m) <> AUX_MODE_PWM ->
  bp_frequency_counter_setup m =
  (f <- frequency_counter_autorange ;;
   frequency_counter_report f ;;
   frequency_counter_release) m.
Proof.
  intros Hmode. unfold bp_frequency_counter_setup at 1.
  unfold bind at 1, get_mode.
  destruct (mode (state m)); [reflexivity | reflexivity | congruence].
Qed.

Lemma bind_run {A B} (c : M A) (k : A -> M B) (m m1 : machine) (a : A) :
  c m = Some (a, m1) -> bind c k m = k a m1.
Proof. intros Hrun. unfold bind. rewrite Hrun. reflexivity. Qed.

(** C6.  Let [c] be the edge count of the first one-second window, taken
    under the 1:256 prescaler.  When [c] exceeds 0x3FFF, [f] is [c] times
    256, no second window is taken and that product is what is printed.
    When [c] is at most 0x3FFF, a second window is taken under the 1:1
    prescaler and [f] is its count as read. *)
Theorem frequency_counter_autorange_decision (m : machine) (c : Z) :
  mode (state m) <> AUX_MODE_PWM ->
  window_count (aux_signal m) (windows m) 0x803A = c ->
  prescale_ratio 0x803A = 256
  /\ (0x3FFF < c ->
      exists m1 m',
        frequency_counter_autorange m = Some (c * 256, m1)
        /\ windows m1 = S (windows m)
        /\ bp_frequency_counter_setup m = Some (tt, m')
        /\ windows m' = S (windows m)
        /\ terminal m' =
           terminal m ++
           [Message BPMSG1038; bp_write_dec_dword_friendly (c * 256);
            Message MSG_PWM_HZ_MARKER])
  /\ (c <= 0x3FFF ->
      let fine := window_count (aux_signal m) (S (windows m)) 0x800A in
      exists m1,
        frequency_counter_autorange m = Some (fine, m1)
        /\ prescale_ratio 0x800A = 1
        /\ windows m1 = S (S (windows m))
        /\ bp_frequency_counter_setup m =
           (frequency_counter_report fine ;; frequency_counter_release) m1).
Proof.
  intros Hmode Hc.
  destruct (frequency_counter_autorange_result m)
    as (m1 & Hrun & Hw & Ht & _).
  rewrite Hc in Hrun, Hw, Ht.
  pose proof (bp_frequency_counter_setup_runs m Hmode) as Hsetup.
  split; [reflexivity |]. split.
  - intros Hhigh. apply Z.ltb_lt in Hhigh.
    rewrite Hhigh in Hrun, Hw, Ht.
    rewrite (bind_run _ _ _ _ _ Hrun) in Hsetup.
    assert (Hprint : (3999 <? c * 256) = true) by (apply Z.ltb_lt; lia).
    destruct m1 as [st1 rf1 c1 t1 s1 w1 k1].
    cbn [windows terminal] in Hw, Ht. subst w1 t1.
    do 2 eexists. split; [exact Hrun |]. split; [reflexivity |].
    rewrite Hsetup.
    unfold frequency_counter_report, frequency_counter_release.
    rewrite Hprint. step.
    split; [reflexivity |]. split; [reflexivity |].
    rewrite <- !app_assoc. reflexivity.
  - intros Hlow fine. apply Z.ltb_ge in Hlow.
    rewrite Hlow in Hrun, Hw.
    rewrite (bind_run _ _ _ _ _ Hrun) in Hsetup.
    exists m1. split; [exact Hrun |]. split; [reflexivity |].
    split; [exact Hw | exact Hsetup].
Qed.

(** ** Printed numbers *)

Lemma decimal_onto_length (k fuel : nat) :
  forall (n : Z) (tail : list ascii),
    (k < fuel)%nat ->
    0 <= n < 10 ^ Z.of_nat (S k) ->
    (k <> 0%nat -> 10 ^ Z.of_nat k <= n) ->
    List.length (decimal_onto fuel n tail) = (S k + List.length tail)%nat.
Proof.
  revert fuel. induction k as [| k IH]; intros fuel n tail Hfuel Hn Hlow.
  - destruct fuel as [| fuel]; [lia |].
    cbn [decimal_onto]. change (10 ^ Z.of_nat 1) with 10 in Hn.
    destruct (Z.ltb_spec n 10); [reflexivity | lia].
  - destruct fuel as [| fuel]; [lia |].
    assert (Hk : 0 < 10 ^ Z.of_nat k) by (apply Z.pow_pos_nonneg; lia).
    specialize (Hlow ltac:(discriminate)).
    rewrite Nat2Z.inj_succ, Z.pow_succ_r in Hlow by lia.
    do 2 rewrite Nat2Z.inj_succ, Z.pow_succ_r in Hn by lia.
    cbn [decimal_onto].
    destruct (Z.ltb_spec n 10); [lia |].
    rewrite IH.
    + cbn [List.length]. lia.
    + lia.
    + rewrite Nat2Z.inj_succ, Z.pow_succ_r by lia. split.
      * apply Z.div_pos; lia.
      * apply Z.div_lt_upper_bound; lia.
    + intros _. apply Z.div_le_lower_bound; lia.
Qed.

Lemma decimal_length_1 (n : Z) :
  0 <= n < 10 -> List.length (decimal n) = 1%nat.
Proof.
  intros H. unfold decimal. rewrite (decimal_onto_length 0); [reflexivity | lia | exact H | congruence].
Qed.

Lemma decimal_length_2 (n : Z) :
  10 <= n < 100 -> List.length (decimal n) = 2%nat.
Proof.
  intros H. unfold decimal. rewrite (decimal_onto_length 1); [reflexivity | lia | | intros _].
  - change (10 ^ Z.of_nat 2) with 100. lia.
  - change (10 ^ Z.of_nat 1) with 10. lia.
Qed.

Lemma decimal_length_3 (n : Z) :
  100 <= n < 1000 -> List.length (decimal n) = 3%nat.
Proof.
  intros H. unfold decimal. rewrite (decimal_onto_length 2); [reflexivity | lia | | intros _].
  - change (10 ^ Z.of_nat 3) with 1000. lia.
  - change (10 ^ Z.of_nat 2) with 100. lia.
Qed.

Lemma decimal_length_4 (n : Z) :
  1000 <= n < 10000 -> List.length (decimal n) = 4%nat.
Proof.
  intros H. unfold decimal. rewrite (decimal_onto_length 3); [reflexivity | lia | | intros _].
  - change (10 ^ Z.of_nat 4) with 10000. lia.
  - change (10 ^ Z.of_nat 3) with 1000. lia.
Qed.

Lemma decimal_length_5 (n : Z) :
  10000 <= n < 100000 -> List.length (decimal n) = 5%nat.
Proof.
  intros H. unfold decimal. rewrite (decimal_onto_length 4); [reflexivity | lia | | intros _].
  - change (10 ^ Z.of_nat 5) with 100000. lia.
  - change (10 ^ Z.of_nat 4) with 10000. lia.
Qed.

Ltac count_digits :=
  cbn [flat_map printed app List.length];
  rewrite ?app_nil_r;
  first [ rewrite decimal_length_1 by lia
        | rewrite decimal_length_2 by lia
        | rewrite decimal_length_3 by lia
        | rewrite decimal_length_4 by lia
        | rewrite decimal_length_5 by lia ];
  reflexivity.

Ltac tier_cases r :=
  repeat match goal with
         | |- context [r <? ?bound] =>
             destruct (Z.ltb_spec r bound); try lia; step
         end.

Ltac exists_tier :=
  do 5 eexists;
  split; [reflexivity |];
  split; [reflexivity |];
  split; [reflexivity |];
  split; [cbn [terminal]; rewrite <- !app_assoc; reflexivity |];
  split; [count_digits |];
  repeat split.

Lemma report_period_prints (p : Z) (m : machine) :
  exists (places : nat) (scale f : Z) (rest : list output) (m' : machine),
    report_period p m = Some (tt, m')
    /\ (places, scale) =
       (if 400000 <? p then (5%nat, 1600000000000)
        else if 126491 <? p then (4%nat, 160000000000)
        else if 40000 <? p then (3%nat, 16000000000)
        else if 12649 <? p then (2%nat, 1600000000)
        else (1%nat, 160000000))
    /\ f = IEEE.to_unsigned 64
             (IEEE.div double (IEEE.of_Z double scale) (IEEE.of_Z double p))
    /\ terminal m' =
       terminal m ++
       bp_write_dec_dword_friendly (f / 10 ^ Z.of_nat places)
       :: UART1TX "." :: rest
    /\ List.length (flat_map printed rest) = places
    /\ state m' = state m
    /\ regs m' = regs m
    /\ tty m' = tty m
    /\ windows m' = windows m
    /\ captures m' = captures m.
Proof.
  destruct m as [st rf c t s w k].
  unfold report_period.
  destruct (400000 <? p);
    [| destruct (126491 <? p);
       [| destruct (40000 <? p); [| destruct (12649 <? p)]]];
    cbv zeta;
    match goal with
    | |- context [IEEE.to_unsigned 64 ?x mod ?d] =>
        set (f := IEEE.to_unsigned 64 x);
        set (r := f mod d);
        assert (Hr : 0 <= r < d) by (apply Z.mod_pos_bound; reflexivity)
    end;
    step; tier_cases r;
    exists_tier.
Qed.

(** The period branch of the resolution switch: [f] in 1..3999, the
    sampler returning [p]. *)
Lemma frequency_counter_report_period
    (f p : Z) (m1 m2 m3 : machine) :
  0 < f <= 3999 ->
  (say BPMSG1245 ;; average_sample_frequency (to_uint16 f)) m1
  = Some (p, m2) ->
  report_period p m2 = Some (tt, m3) ->
  exists m',
    (frequency_counter_report f ;; frequency_counter_release) m1
    = Some (tt, m')
    /\ terminal m' = terminal m3 ++ [Message MSG_PWM_HZ_MARKER]
    /\ state m' = state m3
    /\ windows m' = windows m3
    /\ captures m' = captures m3
    /\ regs m' T2CON = 0
    /\ regs m' T4CON = 0.
Proof.
  intros Hf Hsample Hreport.
  assert (Hhigh : (3999 <? f) = false) by (apply Z.ltb_ge; lia).
  assert (Hpos : (0 <? f) = true) by (apply Z.ltb_lt; lia).
  unfold frequency_counter_report. rewrite Hhigh, Hpos.
  assert (Hsay : say BPMSG1245 m1
                 = Some (tt, with_terminal
                               (terminal m1 ++ [Message BPMSG1245]) m1))
    by reflexivity.
  rewrite (bind_run _ _ _ _ _ Hsay) in Hsample.
  assert (Hbody :
    (say BPMSG1245 ;;
     p <- average_sample_frequency (to_uint16 f) ;;
     report_period p ;;
     say MSG_PWM_HZ_MARKER) m1
    = Some (tt, with_terminal
                  (terminal m3 ++ [Message MSG_PWM_HZ_MARKER]) m3)).
  { rewrite (bind_run _ _ _ _ _ Hsay).
    rewrite (bind_run _ _ _ _ _ Hsample).
    rewrite (bind_run _ _ _ _ _ Hreport).
    reflexivity. }
  rewrite (bind_run _ _ _ _ _ Hbody).
  destruct m3 as [st3 rf3 c3 t3 s3 w3 k3].
  unfold frequency_counter_release. step.
  eexists. split; [reflexivity |]. repeat split.
Qed.

Lemma decimal_places_after_point (value : Z) (rest : list output) :
  decimal_places (bp_write_dec_dword_friendly value :: UART1TX "." :: rest)
  = Some (List.length (flat_map printed rest)).
Proof. reflexivity. Qed.

(** What [bp_frequency_counter_setup] prints once the sampler has returned
    the average period [p]. *)
Lemma bp_frequency_counter_setup_prints_period
    (m : machine) (f p : Z) (m1 m2 : machine) :
  mode (state m) <> AUX_MODE_PWM ->
  frequency_counter_autorange m = Some (f, m1) ->
  0 < f <= 3999 ->
  (say BPMSG1245 ;; average_sample_frequency (to_uint16 f)) m1
  = Some (p, m2) ->
  exists (places : nat) (scale q : Z) (rest : list output) (m3 m' : machine),
    (places, scale) =
      (if 400000 <? p then (5%nat, 1600000000000)
       else if 126491 <? p then (4%nat, 160000000000)
       else if 40000 <? p then (3%nat, 16000000000)
       else if 12649 <? p then (2%nat, 1600000000)
       else (1%nat, 160000000))
    /\ q = IEEE.to_unsigned 64
             (IEEE.div double (IEEE.of_Z double scale) (IEEE.of_Z double p))
    /\ report_period p m2 = Some (tt, m3)
    /\ terminal m3 =
       terminal m2 ++
       bp_write_dec_dword_friendly (q / 10 ^ Z.of_nat places)
       :: UART1TX "." :: rest
    /\ List.length (flat_map printed rest) = places
    /\ bp_frequency_counter_setup m = Some (tt, m')
    /\ terminal m' = terminal m3 ++ [Message MSG_PWM_HZ_MARKER].
Proof.
  intros Hmode Hrange Hf Hsample.
  destruct (report_period_prints p m2)
    as (places & scale & q & rest & m3 & Hreport & Htier & Hq & Hterm
        & Hlen & _).
  destruct (frequency_counter_report_period f p m1 m2 m3 Hf Hsample Hreport)
    as (m' & Hrun & Hterm' & _).
  exists places, scale, q, rest, m3, m'.
  repeat (split; [assumption |]).
  split; [| exact Hterm'].
  rewrite (bp_frequency_counter_setup_runs m Hmode).
  rewrite (bind_run _ _ _ _ _ Hrange). exact Hrun.
Qed.

(** C7.  For every average period [p] that the sampler returns, the
    frequency is printed with 5 decimal places when [p] exceeds 400000,
    with 4 when [p] is above 126491 and at most 400000, with 3 when [p]
    is above 40000 and at most 126491, with 2 when [p] is above 12649 and
    at most 40000, and with 1 when [p] is at most 12649. *)
Theorem report_period_decimal_places
    (m : machine) (f p : Z) (m1 m2 : machine) :
  mode (state m) <> AUX_MODE_PWM ->
  frequency_counter_autorange m = Some (f, m1) ->
  0 < f <= 3999 ->
  (say BPMSG1245 ;; average_sample_frequency (to_uint16 f)) m1
  = Some (p, m2) ->
  exists (number : list output) (m' : machine),
    bp_frequency_counter_setup m = Some (tt, m')
    /\ terminal m' = terminal m2 ++ number ++ [Message MSG_PWM_HZ_MARKER]
    /\ (400000 < p -> decimal_places number = Some 5%nat)
    /\ (126491 < p <= 400000 -> decimal_places number = Some 4%nat)
    /\ (40000 < p <= 126491 -> decimal_places number = Some 3%nat)
    /\ (12649 < p <= 40000 -> decimal_places number = Some 2%nat)
    /\ (p <= 12649 -> decimal_places number = Some 1%nat).
Proof.
  intros Hmode Hrange Hf Hsample.
  destruct (bp_frequency_counter_setup_prints_period m f p m1 m2
              Hmode Hrange Hf Hsample)
    as (places & scale & q & rest & m3 & m' & Htier & _ & _ & Hterm & Hlen
        & Hrun & Hterm').
  eexists. exists m'. split; [exact Hrun |].
  split; [rewrite Hterm', Hterm, <- app_assoc; reflexivity |].
  rewrite decimal_places_after_point, Hlen.
  destruct (Z.ltb_spec 400000 p);
    [| destruct (Z.ltb_spec 126491 p);
       [| destruct (Z.ltb_spec 40000 p);
          [| destruct (Z.ltb_spec 12649 p)]]];
    injection Htier as -> _; repeat split; intros; (reflexivity || lia).
Qed.

(** C8, as the code has it.  For an average period of exactly 20000 ticks
    [bp_frequency_counter_setup] takes the tier above 12649, which divides
    16e8 by the period, and prints the frequency with two decimal places. *)
Theorem report_period_20000_two_decimal_places
    (m : machine) (f : Z) (m1 m2 : machine) :
  mode (state m) <> AUX_MODE_PWM ->
  frequency_counter_autorange m = Some (f, m1) ->
  0 < f <= 3999 ->
  (say BPMSG1245 ;; average_sample_frequency (to_uint16 f)) m1
  = Some (20000, m2) ->
  exists (q : Z) (rest : list output) (m' : machine),
    q = IEEE.to_unsigned 64
          (IEEE.div double (IEEE.of_Z double 1600000000)
             (IEEE.of_Z double 20000))
    /\ bp_frequency_counter_setup m = Some (tt, m')
    /\ terminal m' =
       terminal m2 ++
       (bp_write_dec_dword_friendly (q / 100) :: UART1TX "." :: rest)
       ++ [Message MSG_PWM_HZ_MARKER]
    /\ decimal_places
         (bp_write_dec_dword_friendly (q / 100) :: UART1TX "." :: rest)
       = Some 2%nat.
Proof.
  intros Hmode Hrange Hf Hsample.
  destruct (bp_frequency_counter_setup_prints_period m f 20000 m1 m2
              Hmode Hrange Hf Hsample)
    as (places & scale & q & rest & m3 & m' & Htier & Hq & _ & Hterm & Hlen
        & Hrun & Hterm').
  change ((places, scale) = (2%nat, 1600000000)) in Htier.
  injection Htier as -> ->.
  exists q, rest, m'. split; [exact Hq |]. split; [exact Hrun |].
  split; [rewrite Hterm', Hterm, <- app_assoc; reflexivity |].
  rewrite decimal_places_after_point, Hlen. reflexivity.
Qed.

(** ** Servo driver *)

Lemma servo_on_time_table :
  forallb
    (fun n => servo_on_time (Z.of_nat n) =? 1250 * Z.of_nat n / 3500 + 62)
    (seq 0 181) = true.
Proof. vm_compute. reflexivity. Qed.

(** On 0..180 the binary32 computation agrees with the exact quotient. *)
Lemma servo_on_time_exact (angle : Z) :
  0 <= angle <= 180 ->
  servo_on_time angle = 1250 * angle / 3500 + 62.
Proof.
  intros Hangle.
  pose proof servo_on_time_table as Htable.
  rewrite forallb_forall in Htable.
  specialize (Htable (Z.to_nat angle)).
  rewrite Z2Nat.id in Htable by lia.
  apply Z.eqb_eq, Htable, in_seq. lia.
Qed.

Lemma servoset_once (PWM_pd : spec_float) (m : machine) :
  exists m',
    servoset 1 false PWM_pd m = Some (tt, m')
    /\ regs m' PR2 = 1250
    /\ regs m' OC5R =
       IEEE.to_unsigned 16
         (IEEE.add IEEE.binary32
            (IEEE.mul IEEE.binary32 (IEEE.of_Z IEEE.binary32 1250)
               (IEEE.div IEEE.binary32 PWM_pd
                  (IEEE.of_Z IEEE.binary32 3500)))
            (IEEE.of_Z IEEE.binary32 62))
    /\ regs m' OC5RS = regs m' OC5R
    /\ regs m' AUXPIN_RPOUT = OC5_IO
    /\ prescale_ratio (regs m' T2CON) = 256
    /\ state m' = {| pwm_frequency := pwm_frequency (state m);
                     pwm_duty_cycle := pwm_duty_cycle (state m);
                     mode := AUX_MODE_PWM |}.
Proof.
  destruct m as [st rf c t s w k].
  cbn [servoset]. step.
  eexists. split; [reflexivity |]. step.
  repeat split.
  unfold prescale_ratio.
  rewrite !testbit_assign_bit by (unfold TON, TCKPS1, TCKPS0; lia).
  reflexivity.
Qed.

(** C9.  For angles in [0, 180] the on-time that [servoset] loads into the
    compare registers, with the period register at 1250, does not decrease
    when the angle grows; it is 62 at angle 0 and 94 at angle 90. *)
Theorem servoset_on_time_monotone (a b : Z) (m : machine) :
  0 <= a <= b ->
  b <= 180 ->
  exists ma mb,
    servoset 1 false (IEEE.of_Z IEEE.binary32 a) m = Some (tt, ma)
    /\ servoset 1 false (IEEE.of_Z IEEE.binary32 b) m = Some (tt, mb)
    /\ regs ma PR2 = 1250
    /\ regs mb PR2 = 1250
    /\ regs ma OC5R = 1250 * a / 3500 + 62
    /\ regs mb OC5R = 1250 * b / 3500 + 62
    /\ regs ma OC5R <= regs mb OC5R
    /\ (a = 0 -> regs ma OC5R = 62)
    /\ (a = 90 -> regs ma OC5R = 94).
Proof.
  intros Ha Hb.
  destruct (servoset_once (IEEE.of_Z IEEE.binary32 a) m)
    as (ma & Hruna & Hpa & Hoa & _).
  destruct (servoset_once (IEEE.of_Z IEEE.binary32 b) m)
    as (mb & Hrunb & Hpb & Hob & _).
  fold (servo_on_time a) in Hoa. fold (servo_on_time b) in Hob.
  rewrite servo_on_time_exact in Hoa, Hob by lia.
  exists ma, mb. rewrite Hoa, Hob.
  repeat (split; [assumption || reflexivity |]).
  split; [| split].
  - apply Z.add_le_mono_r, Z.div_le_mono; lia.
  - intros ->. reflexivity.
  - intros ->. reflexivity.
Qed.

(** * Further properties of the PWM generator *)

(** Changing the duty cycle after PWM was programmed leaves the machine as
    programming the same frequency with the new duty cycle at once would
    have left it, for every frequency, 0 included. *)
Theorem bp_update_duty_cycle_after_bp_update_pwm
    (frequency duty_cycle duty_cycle' : Z) (m : machine) :
  exists m1 m2 m2',
    bp_update_pwm frequency duty_cycle m = Some (tt, m1)
    /\ bp_update_duty_cycle duty_cycle' m1 = Some (tt, m2)
    /\ bp_update_pwm frequency duty_cycle' m = Some (tt, m2')
    /\ state m2 = state m2'
    /\ (forall r, regs m2 r = regs m2' r)
    /\ tty m2 = tty m2'
    /\ terminal m2 = terminal m2'.
Proof.
  destruct m as [st rf c t s w k].
  unfold bp_update_duty_cycle, bp_update_pwm, setup_prescaler_divisor.
  destruct (frequency =? 0) eqn:Hzero;
    [| destruct (frequency <? 4) eqn:H4;
       [| destruct (frequency <? 31) eqn:H31;
          [| destruct (frequency <? 245) eqn:H245]]];
    step; do 3 eexists;
    (split; [reflexivity |]);
    step; rewrite ?Hzero; step; rewrite ?H4, ?H31, ?H245; step;
    (split; [reflexivity |]); (split; [reflexivity |]); step;
    (split; [reflexivity |]);
    (split; [intros r; destruct r; reflexivity |]);
    split; reflexivity.
Qed.

Lemma bp_update_duty_cycle_zero_frequency (duty_cycle : Z) (m : machine) :
  pwm_frequency (state m) = 0 ->
  exists m',
    bp_update_duty_cycle duty_cycle m = Some (tt, m')
    /\ state m' = {| pwm_frequency := 0;
                     pwm_duty_cycle := duty_cycle;
                     mode := AUX_MODE_IO |}
    /\ regs m' AUXPIN_RPOUT = 0
    /\ regs m' T2CON = 0
    /\ regs m' OC5CON = 0
    /\ regs m' PR2 = regs m PR2
    /\ regs m' OC5R = regs m OC5R.
Proof.
  intros Hoff.
  unfold bp_update_duty_cycle, get_pwm_frequency.
  unfold bind at 1. rewrite Hoff.
  destruct m as [st rf c t s w k].
  unfold bp_update_pwm. step.
  eexists. split; [reflexivity |]. repeat split.
Qed.

(** While the recorded frequency is 0, as after power-on, updating the duty
    cycle records the duty cycle and leaves PWM off: timers stopped, pin
    detached, mode IO. *)
Theorem bp_update_duty_cycle_while_off (duty_cycle : Z) (m : machine) :
  pwm_frequency (state m) = 0 ->
  exists m',
    bp_update_duty_cycle duty_cycle m = Some (tt, m')
    /\ state m' = {| pwm_frequency := 0;
                     pwm_duty_cycle := duty_cycle;
                     mode := AUX_MODE_IO |}
    /\ regs m' AUXPIN_RPOUT = 0
    /\ regs m' T2CON = 0
    /\ regs m' OC5CON = 0
    /\ regs m' PR2 = regs m PR2
    /\ regs m' OC5R = regs m OC5R.
Proof. exact (bp_update_duty_cycle_zero_frequency duty_cycle m). Qed.

(** [bp_update_pwm] does not check its arguments.  Above 16000 Hz the
    quotient is 0 and the period register wraps to 0xFFFF; the compare
    registers then hold the low 16 bits of 0xFFFF times the duty cycle,
    divided by 100. *)
Theorem bp_update_pwm_above_16000 (frequency duty_cycle : Z) (m : machine) :
  16000 < frequency < 65536 ->
  0 < duty_cycle <= 99 ->
  exists m',
    bp_update_pwm frequency duty_cycle m = Some (tt, m')
    /\ regs m' PR2 = 0xFFFF
    /\ regs m' OC5R = (65536 - duty_cycle) / 100
    /\ regs m' OC5RS = (65536 - duty_cycle) / 100
    /\ 654 <= regs m' OC5R <= 655
    /\ mode (state m') = AUX_MODE_PWM.
Proof.
  intros Hf Hd.
  destruct (bp_update_pwm_nonzero frequency duty_cycle m)
    as (divisor & period & m' & Hrun & Hdiv & Hper & Hstate & HPR2 & HOC5R
        & HOC5RS & _); [lia |].
  assert (Hdivisor : divisor = 16000).
  { rewrite Hdiv.
    destruct (Z.ltb_spec frequency 4); [lia |].
    destruct (Z.ltb_spec frequency 31); [lia |].
    destruct (Z.ltb_spec frequency 245); [lia | reflexivity]. }
  assert (Hperiod : period = 65535).
  { rewrite Hper, Hdivisor, Z.div_small by lia. reflexivity. }
  assert (Hcycle : to_uint16 (period * duty_cycle) = 65536 - duty_cycle).
  { rewrite Hperiod. unfold to_uint16, wrap. change (2 ^ 16) with 65536.
    replace (65535 * duty_cycle)
      with (65536 - duty_cycle + (duty_cycle - 1) * 65536) by lia.
    rewrite Z.mod_add by lia. apply Z.mod_small. lia. }
  exists m'. rewrite HPR2, HOC5R, HOC5RS, Hcycle, Hstate. cbn [mode].
  split; [exact Hrun |]. split; [exact Hperiod |].
  do 2 (split; [reflexivity |]).
  split; [| reflexivity].
  split.
  - apply Z.div_le_lower_bound; lia.
  - apply Z.lt_succ_r. apply Z.div_lt_upper_bound; lia.
Qed.

(** In the documented range of frequencies the on-time never exceeds the
    period, for every duty cycle up to 100: it is 0 at 0% and equals the
    period at 100%, without any wrap-around. *)
Theorem bp_update_pwm_on_time_within_period
    (frequency duty_cycle : Z) (m : machine) :
  0 < frequency < 4000 ->
  0 <= duty_cycle <= 100 ->
  exists m',
    bp_update_pwm frequency duty_cycle m = Some (tt, m')
    /\ 3 <= regs m' PR2 <= 64
    /\ 0 <= regs m' OC5R <= regs m' PR2
    /\ regs m' OC5RS = regs m' OC5R
    /\ (duty_cycle = 0 -> regs m' OC5R = 0)
    /\ (duty_cycle = 100 -> regs m' OC5R = regs m' PR2).
Proof.
  intros Hf Hd.
  destruct (bp_update_pwm_nonzero frequency duty_cycle m)
    as (divisor & period & m' & Hrun & Hdiv & Hper & _ & HPR2 & HOC5R
        & HOC5RS & _); [lia |].
  pose proof (pwm_period_range frequency Hf) as Hrange.
  rewrite <- Hdiv in Hrange.
  assert (Hperiod : period = divisor / frequency - 1).
  { rewrite Hper. apply wrap_small. lia. }
  rewrite <- Hperiod in Hrange.
  assert (Hproduct : to_uint16 (period * duty_cycle) = period * duty_cycle).
  { apply wrap_small. nia. }
  exists m'. rewrite HPR2, HOC5R, HOC5RS, Hproduct.
  split; [exact Hrun |]. split; [exact Hrange |].
  split; [| split; [reflexivity |]; split].
  - split.
    + apply Z.div_pos; nia.
    + apply Z.lt_succ_r. apply Z.div_lt_upper_bound; nia.
  - intros ->. rewrite Z.mul_0_r. reflexivity.
  - intros ->. apply Z.div_mul. lia.
Qed.

(** * Further properties of the interactive PWM command *)

(** Re-entered without arguments while PWM is on, [bp_pwm_setup] stops the
    timers, detaches the pin, reports [BPMSG1028] and returns in mode IO;
    it reads nothing from the command line and leaves the period and
    compare registers as they were. *)
Theorem bp_pwm_setup_toggles_off (m : machine) :
  mode (state m) = AUX_MODE_PWM ->
  cmdbuf (tty m) (Z.land (cmdstart (tty m) + 1) CMDLENMSK) = 0 ->
  exists m',
    bp_pwm_setup m = Some (tt, m')
    /\ mode (state m') = AUX_MODE_IO
    /\ regs m' AUXPIN_RPOUT = 0
    /\ regs m' T2CON = 0
    /\ regs m' T4CON = 0
    /\ regs m' OC5CON = 0
    /\ regs m' PR2 = regs m PR2
    /\ regs m' OC5R = regs m OC5R
    /\ terminal m' = terminal m ++ [Message BPMSG1028]
    /\ tty m' = tty m.
Proof.
  destruct m as [[f d md] rf c t s w k].
  cbn [state mode tty]. intros -> Hnext.
  unfold bp_pwm_setup. step. rewrite Hnext. cbn [Z.eqb]. step.
  eexists. split; [reflexivity |]. repeat split.
Qed.

Lemma pwm_setup_on_time_table :
  forallb
    (fun p =>
       forallb
         (fun d =>
            (pwm_setup_on_time (Z.of_nat p) (Z.of_nat d)
             =? Z.of_nat p * Z.of_nat d / 100)
            && (IEEE.ltb (IEEE.of_Z IEEE.binary32 (Z.of_nat d))
                  (IEEE.of_Z IEEE.binary32 100)))
         (seq 0 100))
    (seq 0 65) = true.
Proof. vm_compute. reflexivity. Qed.

(** For a period register value up to 64 and a duty cycle up to 99 the
    binary32 computation of [bp_pwm_setup] agrees with the integer one of
    [bp_update_pwm]. *)
Lemma pwm_setup_on_time_exact (period percent : Z) :
  0 <= period <= 64 ->
  0 <= percent <= 99 ->
  pwm_setup_on_time period percent = period * percent / 100
  /\ IEEE.ltb (IEEE.of_Z IEEE.binary32 percent)
       (IEEE.of_Z IEEE.binary32 100) = true.
Proof.
  intros Hp Hd.
  pose proof pwm_setup_on_time_table as Htable.
  rewrite forallb_forall in Htable.
  specialize (Htable (Z.to_nat period) ltac:(apply in_seq; lia)).
  rewrite forallb_forall in Htable.
  specialize (Htable (Z.to_nat percent) ltac:(apply in_seq; lia)).
  rewrite !Z2Nat.id in Htable by lia.
  apply andb_true_iff in Htable as [Hvalue Hless].
  split; [apply Z.eqb_eq; exact Hvalue | exact Hless].
Qed.

Lemma positive_percent_table :
  forallb
    (fun d => IEEE.ltb (IEEE.of_Z IEEE.binary32 0)
                (IEEE.of_Z IEEE.binary32 (Z.of_nat d)))
    (seq 1 99) = true.
Proof. vm_compute. reflexivity. Qed.

Lemma positive_percent (percent : Z) :
  0 < percent <= 99 ->
  IEEE.ltb (IEEE.of_Z IEEE.binary32 0) (IEEE.of_Z IEEE.binary32 percent)
  = true.
Proof.
  intros Hd.
  pose proof positive_percent_table as Htable.
  rewrite forallb_forall in Htable.
  specialize (Htable (Z.to_nat percent) ltac:(apply in_seq; lia)).
  rewrite Z2Nat.id in Htable by lia. exact Htable.
Qed.

(** Given a frequency in (0, 4000) and a duty cycle in (0, 100) on the
    command line, [bp_pwm_setup] prompts for nothing and loads the timer,
    period, compare and pin routing registers with what [bp_update_pwm]
    loads for the same arguments; unlike [bp_update_pwm] it leaves the
    recorded frequency and duty cycle alone. *)
Theorem bp_pwm_setup_from_command_line
    (F D : Z) (m : machine) (c1 c2 : console) :
  (mode (state m) = AUX_MODE_PWM ->
   cmdbuf (tty m) (Z.land (cmdstart (tty m) + 1) CMDLENMSK) <> 0) ->
  getint (consumewhitechars
            (set_cmdstart (Z.land (cmdstart (tty m) + 1) CMDLENMSK) (tty m)))
  = (F, c1) ->
  getint (consumewhitechars c1) = (D, c2) ->
  0 < F < 4000 ->
  0 < D < 100 ->
  exists m' mu,
    bp_pwm_setup m = Some (tt, m')
    /\ bp_update_pwm F D m = Some (tt, mu)
    /\ regs m' PR2 = regs mu PR2
    /\ regs m' OC5R = regs mu OC5R
    /\ regs m' OC5RS = regs mu OC5RS
    /\ regs m' AUXPIN_RPOUT = regs mu AUXPIN_RPOUT
    /\ regs m' T2CON = regs mu T2CON
    /\ regs m' OC5CON = regs mu OC5CON
    /\ mode (state m') = AUX_MODE_PWM
    /\ pwm_frequency (state m') = pwm_frequency (state m)
    /\ pwm_duty_cycle (state m') = pwm_duty_cycle (state m)
    /\ tty m' = c2
    /\ terminal m' =
       terminal m ++
       match mode (state m) with
       | AUX_MODE_PWM => [Message BPMSG1028; Message BPMSG1034]
       | _ => [Message BPMSG1034]
       end.
Proof.
  intros Hargs Hget1 Hget2 HF HD.
  destruct m as [[f d md] rf c t s w k]. cbn [state mode tty] in *.
  pose proof (pwm_period_range F HF) as Hrange.
  assert (HuF : to_uint16 F = F)
    by (apply wrap_small; change (2 ^ 16) with 65536; lia).
  assert (Hnz : (F =? 0) = false) by (apply Z.eqb_neq; lia).
  assert (H0F : (0 <? F) = true) by (apply Z.ltb_lt; lia).
  assert (HF4000 : (F <? 4000) = true) by (apply Z.ltb_lt; lia).
  pose proof (positive_percent D ltac:(lia)) as Hpos.
  destruct (pwm_setup_on_time_exact 0 D ltac:(lia) ltac:(lia))
    as [_ Hless].
  assert (Hduty : forall period,
             3 <= period <= 64 ->
             pwm_setup_on_time (to_uint16 period) D
             = to_uint16 (to_uint16 period * D) / 100).
  { intros period Hperiod. unfold to_uint16.
    rewrite (wrap_small 16 period) by (change (2 ^ 16) with 65536; lia).
    rewrite (wrap_small 16 (period * D))
      by (change (2 ^ 16) with 65536; nia).
    apply pwm_setup_on_time_exact; lia. }
  assert (Hnext : md = AUX_MODE_PWM ->
                  (cmdbuf c (Z.land (cmdstart c + 1) CMDLENMSK) =? 0)
                  = false).
  { intros Hmd. apply Z.eqb_neq. exact (Hargs Hmd). }
  unfold bp_pwm_setup, bp_update_pwm, setup_prescaler_divisor.
  revert Hrange.
  destruct (F <? 4) eqn:H4;
    [| destruct (F <? 31) eqn:H31; [| destruct (F <? 245) eqn:H245]];
    intros Hrange; specialize (Hduty _ Hrange);
    unfold pwm_setup_on_time in Hduty;
    destruct md; step; try rewrite (Hnext eq_refl);
    step; rewrite Hget1; step; rewrite Hget2; step;
    rewrite HuF, H0F, HF4000, Hpos, Hless; cbn [andb];
    change (negb (0 + 1 + 1 =? 2)) with false; step;
    rewrite ?H4, ?H31, ?H245; step; rewrite Hnz; step;
    do 2 eexists; (split; [reflexivity |]); (split; [reflexivity |]);
    step;
    (split; [reflexivity |]); (split; [exact Hduty |]);
    (split; [exact Hduty |]);
    repeat (split; [reflexivity |]);
    rewrite <- ?app_assoc; reflexivity.
Qed.

(** When the frequency on the command line is not in (0, 4000),
    [bp_pwm_setup] clears [command_error] and prompts for both values, the
    frequency within 1..4000 and the duty cycle within 0..99, whatever duty
    cycle the command line gave; the registers are then loaded as
    [bp_update_pwm] loads them for the answers. *)
Theorem bp_pwm_setup_prompts
    (Fc Dc F D : Z) (m : machine) (c1 c2 c3 c4 : console) :
  (mode (state m) = AUX_MODE_PWM ->
   cmdbuf (tty m) (Z.land (cmdstart (tty m) + 1) CMDLENMSK) <> 0) ->
  getint (consumewhitechars
            (set_cmdstart (Z.land (cmdstart (tty m) + 1) CMDLENMSK) (tty m)))
  = (Fc, c1) ->
  getint (consumewhitechars c1) = (Dc, c2) ->
  ~ 0 < to_uint16 Fc < 4000 ->
  getnumber 50 1 4000 0 (set_command_error false c2) = (F, c3) ->
  getnumber 50 0 99 0 c3 = (D, c4) ->
  1 <= F <= 4000 ->
  0 <= D <= 99 ->
  exists m' mu,
    bp_pwm_setup m = Some (tt, m')
    /\ bp_update_pwm F D m = Some (tt, mu)
    /\ regs m' PR2 = regs mu PR2
    /\ regs m' OC5R = regs mu OC5R
    /\ regs m' OC5RS = regs mu OC5RS
    /\ regs m' AUXPIN_RPOUT = regs mu AUXPIN_RPOUT
    /\ regs m' T2CON = regs mu T2CON
    /\ mode (state m') = AUX_MODE_PWM
    /\ tty m' = c4
    /\ terminal m' =
       terminal m ++
       match mode (state m) with
       | AUX_MODE_PWM => [Message BPMSG1028]
       | _ => []
       end ++
       [Message BPMSG1029; Message BPMSG1030; Message BPMSG1033;
        Message BPMSG1034].
Proof.
  intros Hargs Hget1 Hget2 HFc Hnum1 Hnum2 HF HD.
  destruct m as [[f d md] rf c t s w k]. cbn [state mode tty] in *.
  assert (Hrange : 3 <= (if F <? 4 then 62
                         else if F <? 31 then 250
                         else if F <? 245 then 2000 else 16000) / F - 1
                   <= 64).
  { destruct (Z.eq_dec F 4000) as [-> | Hne];
      [vm_compute; split; discriminate | apply pwm_period_range; lia]. }
  assert (HuF : to_uint16 F = F)
    by (apply wrap_small; change (2 ^ 16) with 65536; lia).
  assert (Hnz : (F =? 0) = false) by (apply Z.eqb_neq; lia).
  assert (Htest : (0 <? to_uint16 Fc) && (to_uint16 Fc <? 4000) = false).
  { apply andb_false_iff.
    destruct (Z.ltb_spec 0 (to_uint16 Fc)); [| left; reflexivity].
    right. apply Z.ltb_ge. lia. }
  assert (Hduty : forall period,
             3 <= period <= 64 ->
             pwm_setup_on_time (to_uint16 period) D
             = to_uint16 (to_uint16 period * D) / 100).
  { intros period Hperiod. unfold to_uint16.
    rewrite (wrap_small 16 period) by (change (2 ^ 16) with 65536; lia).
    rewrite (wrap_small 16 (period * D))
      by (change (2 ^ 16) with 65536; nia).
    apply pwm_setup_on_time_exact; lia. }
  assert (Hnext : md = AUX_MODE_PWM ->
                  (cmdbuf c (Z.land (cmdstart c + 1) CMDLENMSK) =? 0)
                  = false).
  { intros Hmd. apply Z.eqb_neq. exact (Hargs Hmd). }
  unfold bp_pwm_setup, bp_update_pwm, setup_prescaler_divisor.
  revert Hrange.
  destruct (F <? 4) eqn:H4;
    [| destruct (F <? 31) eqn:H31; [| destruct (F <? 245) eqn:H245]];
    intros Hrange; specialize (Hduty _ Hrange);
    unfold pwm_setup_on_time in Hduty;
    destruct md; step; try rewrite (Hnext eq_refl);
    step; rewrite Hget1; step; rewrite Hget2; step;
    rewrite Htest;
    match goal with
    | |- context [IEEE.ltb ?x ?y && IEEE.ltb ?y ?z] =>
        destruct (IEEE.ltb x y && IEEE.ltb y z)
    end;
    cbn [Z.add Z.eqb Pos.eqb negb Pos.add]; step;
    rewrite Hnum1; step; rewrite HuF;
    rewrite ?H4, ?H31, ?H245; step; rewrite Hnum2; step;
    rewrite Hnz; step;
    do 2 eexists; (split; [reflexivity |]); (split; [reflexivity |]);
    step;
    (split; [reflexivity |]); (split; [exact Hduty |]);
    (split; [exact Hduty |]);
    repeat (split; [reflexivity |]);
    rewrite <- ?app_assoc; reflexivity.
Qed.


(** PWM started with [bp_pwm_setup] while the recorded frequency is 0, as
    it is after power-on, is switched off by the next
    [bp_update_duty_cycle]: the pin is detached and the mode returns to
    IO. *)
Theorem bp_update_duty_cycle_after_bp_pwm_setup
    (duty_cycle : Z) (m : machine) :
  pwm_frequency (state m) = 0 ->
  exists m1 m2,
    bp_pwm_setup m = Some (tt, m1)
    /\ bp_update_duty_cycle duty_cycle m1 = Some (tt, m2)
    /\ mode (state m2) = AUX_MODE_IO
    /\ pwm_frequency (state m2) = 0
    /\ regs m2 AUXPIN_RPOUT = 0
    /\ regs m2 T2CON = 0
    /\ regs m2 OC5CON = 0.
Proof.
  intros Hoff.
  destruct (keeps_bp_pwm_setup m) as ([] & m1 & Hrun1 & Hf & _).
  rewrite Hoff in Hf.
  destruct (bp_update_duty_cycle_zero_frequency duty_cycle m1 Hf)
    as (m2 & Hrun2 & Hstate & Hpin & Htimer & Hcompare & _).
  exists m1, m2. rewrite Hstate. cbn [mode pwm_frequency].
  repeat split; assumption.
Qed.

(** * Further properties of the frequency counter *)

(** One call of [poll_frequency_counter_value] uses exactly one one-second
    window: the gate timer is loaded with 16,000,000 ticks, the counting
    timer with the full 32-bit period, both timers are stopped again, and
    the result is the 32-bit count [TMR3HLD:TMR2], below 2^32.  It
    overwrites the PWM period register [PR2]. *)
Theorem poll_frequency_counter_value_one_window (m : machine) :
  exists count m',
    poll_frequency_counter_value m = Some (count, m')
    /\ count = window_count (aux_signal m) (windows m)
                 (assign_bit (regs m T2CON) TON ON)
    /\ 0 <= count < 2 ^ 32
    /\ windows m' = S (windows m)
    /\ regs m' PR5 * 65536 + regs m' PR4 = 16000000
    /\ regs m' PR3 = 0xFFFF
    /\ regs m' PR2 = 0xFFFF
    /\ Z.testbit (regs m' T2CON) TON = false
    /\ Z.testbit (regs m' T4CON) TON = false
    /\ state m' = state m
    /\ terminal m' = terminal m.
Proof.
  destruct m as [st rf c t s w k].
  unfold poll_frequency_counter_value, await_T5IF. step.
  pose proof (window_count_range s w (assign_bit (rf T2CON) TON ON))
    as Hrange.
  unfold window_count in *.
  destruct (one_second_window s w (assign_bit (rf T2CON) TON ON))
    as [high low].
  step. rewrite combine_counter_words.
  do 2 eexists. split; [reflexivity |]. step.
  split; [reflexivity |]. split; [exact Hrange |].
  do 4 (split; [reflexivity |]).
  split; [apply testbit_assign_bit_off |].
  split; [apply testbit_assign_bit_off |].
  split; reflexivity.
Qed.

(** ** The period sampler *)

Lemma to_uint32_idempotent_sum (a b : Z) :
  to_uint32 (a + to_uint32 b) = to_uint32 (a + b).
Proof. unfold to_uint32, wrap. apply Zplus_mod_idemp_r. Qed.

(** One step of the accumulation: the 16-bit words of two captures give,
    modulo 2^32, the difference of the 32-bit timer values. *)
Lemma capture_delta (current_high counter_high current_low counter_low : Z) :
  to_uint32
    (to_uint32 (Z.shiftl (to_uint32 (current_high - counter_high)) 16)
     + to_uint32 (current_low - counter_low))
  = to_uint32 ((current_high * 65536 + current_low)
               - (counter_high * 65536 + counter_low)).
Proof.
  rewrite Z.shiftl_mul_pow2 by lia. change (2 ^ 16) with 65536.
  unfold to_uint32, wrap.
  rewrite Zplus_mod_idemp_l, Zplus_mod_idemp_r.
  rewrite <- Zplus_mod_idemp_l, Zmult_mod_idemp_l, Zplus_mod_idemp_l.
  f_equal. ring.
Qed.

(** The loop of the sampler, when every capture it waits for arrives: the
    sum of the differences telescopes to the last timer value less the
    first, modulo 2^32. *)
Lemma sample_periods_sum (n : nat) :
  forall (counter_low counter_high total : Z) (m : machine),
    (forall i, (i < n)%nat ->
               input_capture (aux_signal m) (captures m + i) <> None) ->
    exists last,
      sample_periods n counter_low counter_high (to_uint32 total) m
      = Some (to_uint32 (total + (last - (counter_high * 65536 + counter_low))),
              with_captures (captures m + n) m)
      /\ (n = 0%nat -> last = counter_high * 65536 + counter_low)
      /\ (n <> 0%nat ->
          capture_time (aux_signal m) (captures m + n - 1) = Some last).
Proof.
  induction n as [| n IH]; intros lo hi total m Harrive.
  - exists (hi * 65536 + lo). split; [| split; [reflexivity | congruence]].
    destruct m as [st rf c t s w k].
    cbn [sample_periods]. unfold ret, with_captures.
    cbn [captures state regs tty terminal aux_signal windows].
    rewrite Nat.add_0_r.
    apply f_equal, (f_equal2 pair); [apply f_equal; ring | reflexivity].
  - destruct m as [st rf c t s w k].
    cbn [captures aux_signal] in Harrive.
    cbn [sample_periods]. unfold bind at 1, await_capture.
    cbn [captures aux_signal].
    pose proof (Harrive 0%nat ltac:(lia)) as Hfirst.
    rewrite Nat.add_0_r in Hfirst.
    destruct (input_capture s k) as [[ic1 ic2] |] eqn:Hcapture;
      [| congruence].
    cbn [fst snd].
    rewrite capture_delta, to_uint32_idempotent_sum.
    rewrite (Z.add_comm (to_uint32 total)), to_uint32_idempotent_sum.
    unfold with_captures at 1.
    cbn [captures state regs tty terminal aux_signal windows].
    match goal with
    | |- context [sample_periods n ?l ?h (to_uint32 ?x) ?mm] =>
        destruct (IH l h x mm) as (last & Hrun & Hzero & Hlast)
    end.
    { cbn [captures aux_signal]. intros i Hi.
      replace (S k + i)%nat with (k + S i)%nat by lia.
      apply Harrive. lia. }
    cbn [captures aux_signal] in Hrun, Hlast.
    rewrite Hrun. unfold with_captures.
    cbn [captures state regs tty terminal aux_signal windows].
    replace (S k + n)%nat with (k + S n)%nat by lia.
    destruct n as [| n'].
    + exists (to_uint16 ic2 * 65536 + to_uint16 ic1).
      rewrite (Hzero eq_refl).
      split; [| split; [discriminate |]].
      * apply f_equal, (f_equal2 pair); [apply f_equal; ring | reflexivity].
      * intros _. unfold capture_time.
        replace (k + 1 - 1)%nat with k by lia.
        rewrite Hcapture. reflexivity.
    + exists last. split; [| split; [discriminate |]].
      * apply f_equal, (f_equal2 pair); [apply f_equal; ring | reflexivity].
      * intros _. specialize (Hlast ltac:(discriminate)).
        replace (k + S (S n') - 1)%nat with (S k + S n' - 1)%nat by lia.
        exact Hlast.
Qed.

(** The loop never returns when one of the captures it waits for does not
    arrive. *)
Lemma sample_periods_blocks (n : nat) :
  forall (counter_low counter_high total : Z) (m : machine),
    (exists i, (i < n)%nat
               /\ input_capture (aux_signal m) (captures m + i) = None) ->
    sample_periods n counter_low counter_high total m = None.
Proof.
  induction n as [| n IH]; intros lo hi total m (i & Hi & Hnone).
  - lia.
  - destruct m as [st rf c t s w k].
    cbn [captures aux_signal] in Hnone.
    cbn [sample_periods]. unfold bind at 1, await_capture.
    cbn [captures aux_signal].
    destruct (input_capture s k) as [[ic1 ic2] |] eqn:Hcapture;
      [| reflexivity].
    apply IH. unfold with_captures.
    cbn [captures aux_signal].
    destruct i as [| i].
    + rewrite Nat.add_0_r in Hnone. congruence.
    + exists i. split; [lia |].
      replace (S k + i)%nat with (k + S i)%nat by lia. exact Hnone.
Qed.

Lemma bind_blocked {A B} (c : M A) (k : A -> M B) (m : machine) :
  c m = None -> bind c k m = None.
Proof. intros Hrun. unfold bind. rewrite Hrun. reflexivity. Qed.

(** Unfolds the set-up and the shut-down of the capture units. *)
Ltac capture_units :=
  unfold average_sample_frequency, flush_capture_buffer;
  destruct BUSPIRATEV4; step.

(** When the [count] + 1 captures it waits for arrive,
    [average_sample_frequency] returns the difference between the timer
    value of the last capture and that of the first, taken modulo 2^32 and
    divided by [count]; it consumes exactly those captures and leaves the
    AUX state, the terminal and the command line alone. *)
Theorem average_sample_frequency_telescopes (count : Z) (m : machine) :
  0 < count ->
  (forall i, (i <= Z.to_nat count)%nat ->
             input_capture (aux_signal m) (captures m + i) <> None) ->
  exists first last m',
    capture_time (aux_signal m) (captures m) = Some first
    /\ capture_time (aux_signal m) (captures m + Z.to_nat count) = Some last
    /\ average_sample_frequency count m
       = Some (to_uint32 (last - first) / count, m')
    /\ captures m' = (captures m + Z.to_nat count + 1)%nat
    /\ windows m' = windows m
    /\ state m' = state m
    /\ terminal m' = terminal m
    /\ tty m' = tty m.
Proof.
  intros Hcount Harrive.
  destruct m as [st rf c t s w k].
  cbn [captures aux_signal] in *.
  pose proof (Harrive 0%nat ltac:(lia)) as Hfirst.
  rewrite Nat.add_0_r in Hfirst.
  unfold capture_time.
  destruct (input_capture s k) as [[ic1 ic2] |] eqn:Hcapture;
    [| congruence].
  assert (Hpositive : Z.to_nat count <> 0%nat) by lia.
  capture_units;
    unfold await_capture at 1; cbn [captures aux_signal];
    rewrite Hcapture; step;
    match goal with
    | |- context [sample_periods ?n ?l ?h 0 ?mm] =>
        destruct (sample_periods_sum n l h 0 mm)
          as (last & Hrun & _ & Hlast)
    end;
    try (cbn [captures aux_signal]; intros i Hi;
         replace (S k + i)%nat with (k + S i)%nat by lia;
         apply Harrive; lia);
    specialize (Hlast Hpositive);
    cbn [captures aux_signal] in Hrun, Hlast;
    change (to_uint32 0) with 0 in Hrun;
    rewrite Hrun; unfold with_captures; step;
    replace (S k + Z.to_nat count - 1)%nat with (k + Z.to_nat count)%nat
      in Hlast by lia;
    unfold capture_time in Hlast;
    destruct (input_capture s (k + Z.to_nat count)) as [[ic1' ic2'] |];
    try discriminate;
    injection Hlast as Hlast;
    do 3 eexists;
    (split; [reflexivity |]); (split; [reflexivity |]);
    (split; [rewrite Hlast, Z.add_0_l; reflexivity |]);
    cbn [captures windows state terminal tty];
    repeat split; lia.
Qed.

(** A capture that never arrives starves the sampling loop. *)
Lemma average_sample_frequency_starved (count : Z) (m : machine) :
  (exists i, (i <= Z.to_nat count)%nat
             /\ input_capture (aux_signal m) (captures m + i) = None) ->
  average_sample_frequency count m = None.
Proof.
  intros (i & Hi & Hnone).
  destruct m as [st rf c t s w k].
  cbn [captures aux_signal] in *.
  capture_units;
    unfold await_capture at 1; cbn [captures aux_signal];
    (destruct (input_capture s k) as [[ic1 ic2] |] eqn:Hcapture;
     [| reflexivity]);
    step;
    match goal with
    | |- context [sample_periods ?n ?l ?h 0 ?mm] =>
        rewrite (sample_periods_blocks n l h 0 mm)
    end;
    try reflexivity;
    cbn [captures aux_signal];
    (destruct i as [| i];
     [rewrite Nat.add_0_r in Hnone; congruence |]);
    exists i; (split; [lia |]);
    replace (S k + i)%nat with (k + S i)%nat by lia; exact Hnone.
Qed.

(** [average_sample_frequency] never returns when one of the [count] + 1
    captures it waits for does not arrive. *)
Theorem average_sample_frequency_blocks (count : Z) (m : machine) :
  (exists i, (i <= Z.to_nat count)%nat
             /\ input_capture (aux_signal m) (captures m + i) = None) ->
  average_sample_frequency count m = None.
Proof.
  intros Hstarved. apply average_sample_frequency_starved, Hstarved.
Qed.

(** Every register a one-second poll writes, by the code or by the timers. *)
Lemma poll_frequency_counter_value_frame (m : machine) :
  exists count m',
    poll_frequency_counter_value m = Some (count, m')
    /\ regs m' T2CON = assign_bit (assign_bit (regs m T2CON) TON ON) TON OFF
    /\ regs m' AUXPIN_DIR = regs m AUXPIN_DIR
    /\ regs m' RPINR3bits_T2CKR = regs m RPINR3bits_T2CKR
    /\ regs m' AUXPIN_RPOUT = regs m AUXPIN_RPOUT
    /\ regs m' OC5R = regs m OC5R
    /\ regs m' OC5RS = regs m OC5RS
    /\ regs m' OC5CON = regs m OC5CON.
Proof.
  destruct m as [st rf c t s w k].
  unfold poll_frequency_counter_value, await_T5IF. step.
  destruct (one_second_window s w (assign_bit (rf T2CON) TON ON))
    as [high low].
  step. do 2 eexists. split; [reflexivity |]. repeat split.
Qed.

(** The loop of the sampler changes nothing but the position in the stream
    of captures. *)
Lemma sample_periods_returns (n : nat) :
  forall (counter_low counter_high total p : Z) (m m' : machine),
    sample_periods n counter_low counter_high total m = Some (p, m') ->
    m' = with_captures (captures m + n) m.
Proof.
  induction n as [| n IH]; intros lo hi total p m m' Hrun.
  - destruct m as [st rf c t s w k].
    cbn [sample_periods] in Hrun. unfold ret in Hrun.
    injection Hrun as _ <-. unfold with_captures.
    cbn [captures state regs tty terminal aux_signal windows].
    rewrite Nat.add_0_r. reflexivity.
  - destruct m as [st rf c t s w k].
    cbn [sample_periods] in Hrun.
    unfold bind at 1, await_capture in Hrun.
    cbn [captures aux_signal] in Hrun.
    destruct (input_capture s k) as [[ic1 ic2] |]; [| discriminate].
    apply IH in Hrun. rewrite Hrun. unfold with_captures.
    cbn [captures state regs tty terminal aux_signal windows].
    replace (S k + n)%nat with (k + S n)%nat by lia. reflexivity.
Qed.

Lemma average_sample_frequency_returns
    (count p : Z) (m m' : machine) :
  average_sample_frequency count m = Some (p, m') ->
  state m' = state m
  /\ tty m' = tty m
  /\ terminal m' = terminal m
  /\ windows m' = windows m
  /\ regs m' AUXPIN_DIR = regs m AUXPIN_DIR
  /\ regs m' RPINR3bits_T2CKR = regs m RPINR3bits_T2CKR
  /\ regs m' AUXPIN_RPOUT = regs m AUXPIN_RPOUT
  /\ regs m' OC5R = regs m OC5R
  /\ regs m' OC5RS = regs m OC5RS
  /\ regs m' OC5CON = regs m OC5CON.
Proof.
  destruct m as [st rf c t s w k].
  capture_units;
    unfold await_capture at 1; cbn [captures aux_signal];
    (destruct (input_capture s k) as [[ic1 ic2] |]; [| discriminate]);
    step;
    match goal with
    | |- context [sample_periods ?n ?l ?h 0 ?mm] =>
        destruct (sample_periods n l h 0 mm) as [[total m1] |] eqn:Hloop;
        [apply sample_periods_returns in Hloop; subst m1 | discriminate]
    end;
    unfold with_captures; step;
    intros Hrun; injection Hrun as _ <-;
    repeat split.
Qed.

Lemma bind_returns {A B} (c : M A) (k : A -> M B) (m m' : machine) (b : B) :
  bind c k m = Some (b, m') ->
  exists a m1, c m = Some (a, m1) /\ k a m1 = Some (b, m').
Proof.
  unfold bind. destruct (c m) as [[a m1] |]; [| discriminate].
  intros Hrun. exists a, m1. split; [reflexivity | exact Hrun].
Qed.

Lemma frequency_counter_autorange_frame (m : machine) :
  exists f m1,
    frequency_counter_autorange m = Some (f, m1)
    /\ regs m1 AUXPIN_DIR = 1
    /\ regs m1 RPINR3bits_T2CKR = AUXPIN_RPIN
    /\ regs m1 AUXPIN_RPOUT = regs m AUXPIN_RPOUT
    /\ regs m1 OC5R = regs m OC5R
    /\ regs m1 OC5RS = regs m OC5RS
    /\ regs m1 OC5CON = regs m OC5CON
    /\ state m1 = state m
    /\ tty m1 = tty m.
Proof.
  destruct m as [st rf c t s w k].
  unfold frequency_counter_autorange, poll_frequency_counter_value,
    await_T5IF.
  step.
  destruct (one_second_window s w (assign_bit 58 TON ON)) as [high low].
  step.
  match goal with
  | |- context [if ?b then _ else _] => destruct b
  end; step.
  - do 2 eexists. split; [reflexivity |]. repeat split.
  - destruct (one_second_window s (S w) (assign_bit 10 TON ON))
      as [high' low'].
    step. do 2 eexists. split; [reflexivity |]. repeat split.
Qed.

Lemma frequency_counter_report_returns (f : Z) (m m' : machine) :
  frequency_counter_report f m = Some (tt, m') ->
  state m' = state m
  /\ tty m' = tty m
  /\ regs m' AUXPIN_DIR = regs m AUXPIN_DIR
  /\ regs m' AUXPIN_RPOUT = regs m AUXPIN_RPOUT
  /\ regs m' OC5R = regs m OC5R
  /\ regs m' OC5RS = regs m OC5RS
  /\ regs m' OC5CON = regs m OC5CON.
Proof.
  unfold frequency_counter_report.
  destruct (3999 <? f); [| destruct (0 <? f)].
  - destruct m as [st rf c t s w k]. step.
    intros Hrun. injection Hrun as <-. repeat split.
  - intros Hrun.
    apply bind_returns in Hrun as ([] & m1 & Hsay & Hrun).
    apply bind_returns in Hrun as (p & m2 & Hsample & Hrun).
    apply bind_returns in Hrun as ([] & m3 & Hreport & Hrun).
    apply average_sample_frequency_returns in Hsample
      as (Hst2 & Htty2 & _ & _ & Hdir2 & _ & Hout2 & Hr2 & Hrs2 & Hcon2).
    destruct (report_period_prints p m2)
      as (places & scale & q & rest & m3' & Hreport' & _ & _ & _ & _
          & Hst3 & Hregs3 & Htty3 & _).
    rewrite Hreport in Hreport'. injection Hreport' as <-.
    destruct m as [st rf c t s w k].
    injection Hsay as <-.
    destruct m3 as [st3 rf3 c3 t3 s3 w3 k3].
    injection Hrun as <-.
    cbn [state regs tty with_terminal] in *.
    subst. repeat split; assumption.
  - destruct m as [st rf c t s w k]. step.
    intros Hrun. injection Hrun as <-. repeat split.
Qed.

(** However the measurement goes, when [bp_frequency_counter_setup]
    returns after a measurement it has stopped both timers and taken the
    timer clock input off the pin; the AUX pin is left as an input, the AUX
    state (the mode included: it never becomes FREQUENCY) and the output
    compare registers are what they were. *)
Theorem bp_frequency_counter_setup_releases (m m' : machine) :
  mode (state m) <> AUX_MODE_PWM ->
  bp_frequency_counter_setup m = Some (tt, m') ->
  regs m' T2CON = 0
  /\ regs m' T4CON = 0
  /\ regs m' RPINR3bits_T2CKR = 0x1F
  /\ regs m' AUXPIN_DIR = 1
  /\ state m' = state m
  /\ regs m' AUXPIN_RPOUT = regs m AUXPIN_RPOUT
  /\ regs m' OC5R = regs m OC5R
  /\ regs m' OC5RS = regs m OC5RS
  /\ regs m' OC5CON = regs m OC5CON
  /\ tty m' = tty m.
Proof.
  intros Hmode Hrun.
  rewrite (bp_frequency_counter_setup_runs m Hmode) in Hrun.
  apply bind_returns in Hrun as (f & m1 & Hauto & Hrun).
  apply bind_returns in Hrun as ([] & m2 & Hreport & Hrun).
  destruct (frequency_counter_autorange_frame m)
    as (f' & m1' & Hauto' & Hdir1 & _ & Hout1 & Hr1 & Hrs1 & Hcon1 & Hst1
        & Htty1).
  rewrite Hauto in Hauto'. injection Hauto' as <- <-.
  apply frequency_counter_report_returns in Hreport
    as (Hst2 & Htty2 & Hdir2 & Hout2 & Hr2 & Hrs2 & Hcon2).
  clear Hauto Hmode.
  destruct m as [st rf c t s w k], m1 as [st1 rf1 c1 t1 s1 w1 k1],
    m2 as [st2 rf2 c2 t2 s2 w2 k2].
  unfold frequency_counter_release in Hrun. revert Hrun. step.
  intros Hrun. injection Hrun as <-.
  cbn [state regs tty] in *.
  repeat split; congruence.
Qed.

(** A signal that stops during the period measurement hangs the command:
    when the second window counts between 1 and 3999 edges and one of the
    captures the sampler then waits for never arrives,
    [bp_frequency_counter_setup] does not return. *)
Theorem bp_frequency_counter_setup_blocks (m : machine) :
  mode (state m) <> AUX_MODE_PWM ->
  window_count (aux_signal m) (windows m) 0x803A <= 0x3FFF ->
  0 < window_count (aux_signal m) (S (windows m)) 0x800A <= 3999 ->
  (exists i,
     (i <= Z.to_nat (window_count (aux_signal m) (S (windows m)) 0x800A))%nat
     /\ input_capture (aux_signal m) (captures m + i) = None) ->
  bp_frequency_counter_setup m = None.
Proof.
  intros Hmode Hcoarse Hfine Hstops.
  destruct (frequency_counter_autorange_result m)
    as (m1 & Hauto & _ & _ & Hsignal & Hcaptures & _).
  apply Z.ltb_ge in Hcoarse. rewrite Hcoarse in Hauto.
  rewrite (bp_frequency_counter_setup_runs m Hmode).
  rewrite (bind_run _ _ _ _ _ Hauto).
  apply bind_blocked.
  unfold frequency_counter_report.
  replace (3999 <? window_count (aux_signal m) (S (windows m)) 32778)
    with false by (symmetry; apply Z.ltb_ge; lia).
  replace (0 <? window_count (aux_signal m) (S (windows m)) 32778)
    with true by (symmetry; apply Z.ltb_lt; lia).
  assert (Hsay : say BPMSG1245 m1
                 = Some (tt, with_terminal
                               (terminal m1 ++ [Message BPMSG1245]) m1))
    by reflexivity.
  rewrite (bind_run _ _ _ _ _ Hsay).
  apply bind_blocked, average_sample_frequency_starved.
  unfold to_uint16. rewrite wrap_small
    by (change (2 ^ 16) with 65536; lia).
  change (aux_signal (with_terminal (terminal m1 ++ [Message BPMSG1245]) m1))
    with (aux_signal m1).
  change (captures (with_terminal (terminal m1 ++ [Message BPMSG1245]) m1))
    with (captures m1).
  rewrite Hsignal, Hcaptures. exact Hstops.
Qed.

(** When the second window counts no edge, or more than 3999, the command
    reports without sampling periods: it consumes no capture and returns
    whatever the signal does, with the too-low message or with the count
    itself as the frequency. *)
Theorem bp_frequency_counter_setup_without_sampling (m : machine) :
  mode (state m) <> AUX_MODE_PWM ->
  window_count (aux_signal m) (windows m) 0x803A <= 0x3FFF ->
  window_count (aux_signal m) (S (windows m)) 0x800A = 0
  \/ 3999 < window_count (aux_signal m) (S (windows m)) 0x800A ->
  exists m',
    bp_frequency_counter_setup m = Some (tt, m')
    /\ terminal m' =
       terminal m ++
       [Message BPMSG1038; Message BPMSG1245] ++
       (if window_count (aux_signal m) (S (windows m)) 0x800A =? 0
        then [Message MSG_PWM_FREQUENCY_TOO_LOW]
        else [bp_write_dec_dword_friendly
                (window_count (aux_signal m) (S (windows m)) 0x800A);
              Message MSG_PWM_HZ_MARKER])
    /\ windows m' = S (S (windows m))
    /\ captures m' = captures m.
Proof.
  intros Hmode Hcoarse Hfine.
  destruct (frequency_counter_autorange_result m)
    as (m1 & Hauto & Hwindows & Hterm & _ & Hcaptures & _).
  apply Z.ltb_ge in Hcoarse. rewrite Hcoarse in Hauto, Hwindows, Hterm.
  rewrite (bp_frequency_counter_setup_runs m Hmode).
  rewrite (bind_run _ _ _ _ _ Hauto).
  set (fine := window_count (aux_signal m) (S (windows m)) 32778) in *.
  destruct m1 as [st1 rf1 c1 t1 s1 w1 k1].
  cbn [windows terminal captures] in Hwindows, Hterm, Hcaptures.
  subst w1 t1 k1.
  unfold frequency_counter_report, frequency_counter_release.
  destruct Hfine as [Hzero | Hhigh].
  - rewrite Hzero. cbn [Z.ltb Z.eqb Z.compare]. step.
    eexists. split; [reflexivity |]. cbn [terminal windows captures].
    rewrite <- !app_assoc. repeat split.
  - replace (3999 <? fine) with true by (symmetry; apply Z.ltb_lt; lia).
    replace (fine =? 0) with false by (symmetry; apply Z.eqb_neq; lia).
    step.
    eexists. split; [reflexivity |]. cbn [terminal windows captures].
    rewrite <- !app_assoc. repeat split.
Qed.

(** ** The non-interactive measurement *)

Ltac control_word k value :=
  match goal with
  | |- context [one_second_window _ k ?c] =>
      lazymatch c with
      | value => fail
      | _ => change c with value
      end
  end.

Lemma bp_measure_frequency_result (m : machine) :
  let coarse := window_count (aux_signal m) (windows m) 0x803A in
  let fine := window_count (aux_signal m) (S (windows m)) 0x800A in
  exists m',
    bp_measure_frequency m
    = Some (if 0xFF <? coarse then to_uint32 (coarse * 256) else fine, m')
    /\ windows m' = (if 0xFF <? coarse then S (windows m)
                     else S (S (windows m)))
    /\ state m' = state m
    /\ terminal m' = terminal m
    /\ tty m' = tty m
    /\ captures m' = captures m
    /\ regs m' T2CON = 0
    /\ regs m' T4CON = 0
    /\ regs m' RPINR3bits_T2CKR = 0x1F
    /\ regs m' AUXPIN_DIR = 1
    /\ regs m' PR2 = 0xFFFF
    /\ regs m' AUXPIN_RPOUT = regs m AUXPIN_RPOUT
    /\ regs m' OC5R = regs m OC5R
    /\ regs m' OC5RS = regs m OC5RS
    /\ regs m' OC5CON = regs m OC5CON.
Proof.
  intros coarse fine. subst coarse fine.
  destruct m as [st rf c t s w k].
  unfold bp_measure_frequency, poll_frequency_counter_value, await_T5IF,
    window_count.
  step. control_word w 32826.
  destruct (one_second_window s w 32826) as [high low].
  step. rewrite combine_counter_words.
  destruct (255 <? to_uint16 high * 65536 + to_uint16 low); step.
  - eexists. split; [reflexivity |]. repeat split.
  - control_word (S w) 32778.
    destruct (one_second_window s (S w) 32778) as [high' low'].
    step. rewrite combine_counter_words.
    eexists. split; [reflexivity |]. repeat split.
Qed.

(** [bp_measure_frequency] returns 256 times the count of the first
    window, modulo 2^32, when that count exceeds 0xFF, and the count of a
    second window taken under the 1:1 prescaler otherwise.  It prints
    nothing, leaves the AUX state alone and ends with both timers stopped,
    the clock input off the pin and the pin an input. *)
Theorem bp_measure_frequency_autoranges (m : machine) (c : Z) :
  window_count (aux_signal m) (windows m) 0x803A = c ->
  exists frequency m',
    bp_measure_frequency m = Some (frequency, m')
    /\ (0xFF < c ->
        frequency = (c * 256) mod 2 ^ 32
        /\ windows m' = S (windows m)
        /\ (c < 2 ^ 24 -> frequency = c * 256))
    /\ (c <= 0xFF ->
        frequency = window_count (aux_signal m) (S (windows m)) 0x800A
        /\ prescale_ratio 0x800A = 1
        /\ windows m' = S (S (windows m)))
    /\ state m' = state m
    /\ terminal m' = terminal m
    /\ captures m' = captures m
    /\ regs m' T2CON = 0
    /\ regs m' T4CON = 0
    /\ regs m' RPINR3bits_T2CKR = 0x1F
    /\ regs m' AUXPIN_DIR = 1.
Proof.
  intros Hc.
  destruct (bp_measure_frequency_result m)
    as (m' & Hrun & Hwindows & Hstate & Hterm & _ & Hcaptures & Ht2 & Ht4
        & Hclock & Hdir & _).
  rewrite Hc in Hrun, Hwindows.
  pose proof (window_count_range (aux_signal m) (windows m) 0x803A)
    as Hrange.
  rewrite Hc in Hrange.
  do 2 eexists. split; [exact Hrun |].
  split; [| split; [| repeat split; assumption]].
  - intros Hhigh. apply Z.ltb_lt in Hhigh. rewrite Hhigh in *.
    split; [reflexivity |]. split; [exact Hwindows |].
    intros Hsmall. apply wrap_small.
    change (2 ^ 24) with 16777216 in Hsmall.
    change (2 ^ 32) with 4294967296. lia.
  - intros Hlow. apply Z.ltb_ge in Hlow. rewrite Hlow in *.
    split; [reflexivity |]. split; [reflexivity | exact Hwindows].
Qed.

(** The stored mode is not consulted: called while PWM is on,
    [bp_measure_frequency] clears the timer 2 control word, which stops
    the PWM time base, and overwrites the period register, yet the mode
    still reads PWM and the pin is still routed to the output compare
    unit. *)
Theorem bp_measure_frequency_during_pwm
    (frequency duty_cycle : Z) (m : machine) :
  0 < frequency < 4000 ->
  0 <= duty_cycle <= 99 ->
  exists m1 f m2,
    bp_update_pwm frequency duty_cycle m = Some (tt, m1)
    /\ Z.testbit (regs m1 T2CON) TON = true
    /\ 3 <= regs m1 PR2 <= 64
    /\ bp_measure_frequency m1 = Some (f, m2)
    /\ regs m2 T2CON = 0
    /\ regs m2 PR2 = 0xFFFF
    /\ mode (state m2) = AUX_MODE_PWM
    /\ regs m2 AUXPIN_RPOUT = OC5_IO
    /\ regs m2 OC5R = regs m1 OC5R.
Proof.
  intros Hf Hd.
  destruct (bp_update_pwm_running frequency duty_cycle m ltac:(lia))
    as (m1 & Hrun1 & Hton & HPR2 & Hstate1 & Hpin1).
  pose proof (pwm_period_range frequency Hf) as Hrange.
  destruct (bp_measure_frequency_result m1)
    as (m2 & Hrun2 & _ & Hstate2 & _ & _ & _ & Ht2 & _ & _ & _ & HPR2'
        & Hpin2 & Hcompare & _).
  do 3 eexists. split; [exact Hrun1 |]. split; [exact Hton |].
  split.
  { rewrite HPR2. unfold to_uint16. rewrite wrap_small; [exact Hrange |].
    change (2 ^ 16) with 65536. lia. }
  split; [exact Hrun2 |].
  rewrite Hstate2, Hstate1, Hpin2, Hpin1.
  repeat split; assumption.
Qed.

(** The two measurements disagree on when to re-measure: for a first count
    above 0xFF and up to 0x3FFF, [bp_measure_frequency] returns 256 times
    that count, a multiple of 256, after one window, where the interactive
    counter takes a second window and uses its count. *)
Theorem bp_measure_frequency_coarser_than_autorange (m : machine) (c : Z) :
  window_count (aux_signal m) (windows m) 0x803A = c ->
  0xFF < c <= 0x3FFF ->
  exists m1 m2,
    bp_measure_frequency m = Some (c * 256, m1)
    /\ windows m1 = S (windows m)
    /\ frequency_counter_autorange m
       = Some (window_count (aux_signal m) (S (windows m)) 0x800A, m2)
    /\ windows m2 = S (S (windows m)).
Proof.
  intros Hc Hbetween.
  destruct (bp_measure_frequency_result m) as (m1 & Hrun1 & Hwin1 & _).
  destruct (frequency_counter_autorange_result m)
    as (m2 & Hrun2 & Hwin2 & _).
  rewrite Hc in Hrun1, Hwin1, Hrun2, Hwin2.
  replace (255 <? c) with true in * by (symmetry; apply Z.ltb_lt; lia).
  replace (16383 <? c) with false in * by (symmetry; apply Z.ltb_ge; lia).
  exists m1, m2.
  rewrite <- (wrap_small 32 (c * 256))
    by (change (2 ^ 32) with 4294967296; lia).
  repeat split; assumption.
Qed.

(** * Further properties of the servo command *)

Lemma servo_angle_in_range_table :
  forallb
    (fun n => negb (IEEE.ltb (IEEE.of_Z IEEE.binary32 180)
                      (IEEE.of_Z IEEE.binary32 (Z.of_nat n))))
    (seq 0 181) = true.
Proof. vm_compute. reflexivity. Qed.

Lemma servo_angle_in_range (angle : Z) :
  0 <= angle <= 180 ->
  IEEE.ltb (IEEE.of_Z IEEE.binary32 180) (IEEE.of_Z IEEE.binary32 angle)
  = false.
Proof.
  intros Hangle.
  pose proof servo_angle_in_range_table as Htable.
  rewrite forallb_forall in Htable.
  specialize (Htable (Z.to_nat angle) ltac:(apply in_seq; lia)).
  rewrite Z2Nat.id in Htable by lia.
  apply negb_true_iff. exact Htable.
Qed.

(** Re-entered without arguments while PWM is on, [bp_servo_setup] detaches
    the pin, reports [BPMSG1028] and returns in mode IO with the timers
    stopped, before it reads anything from the command line. *)
Theorem bp_servo_setup_toggles_off (fuel : nat) (m : machine) :
  mode (state m) = AUX_MODE_PWM ->
  cmdbuf (tty m) (Z.land (cmdstart (tty m) + 1) CMDLENMSK) = 0 ->
  exists m',
    bp_servo_setup fuel m = Some (tt, m')
    /\ mode (state m') = AUX_MODE_IO
    /\ regs m' AUXPIN_RPOUT = 0
    /\ regs m' T2CON = 0
    /\ regs m' T4CON = 0
    /\ regs m' OC5CON = 0
    /\ terminal m' = terminal m ++ [Message BPMSG1028]
    /\ tty m' = tty m.
Proof.
  destruct m as [[f d md] rf c t s w k].
  cbn [state mode tty]. intros -> Hnext.
  unfold bp_servo_setup. step. rewrite Hnext. cbn [Z.eqb]. step.
  eexists. split; [reflexivity |]. repeat split.
Qed.

(** Given an angle in 0..180 on the command line, [bp_servo_setup] programs
    the servo once and returns without prompting: prescaler 1:256, period
    register 1250, both compare registers at 1250 * angle / 3500 + 62, pin
    routed to the output compare unit, timer on, mode PWM.  The recorded
    PWM frequency and duty cycle are not touched. *)
Theorem bp_servo_setup_from_command_line
    (angle : Z) (fuel : nat) (m : machine) (c1 : console) :
  (mode (state m) = AUX_MODE_PWM ->
   cmdbuf (tty m) (Z.land (cmdstart (tty m) + 1) CMDLENMSK) <> 0) ->
  getint (consumewhitechars
            (set_cmdstart (Z.land (cmdstart (tty m) + 1) CMDLENMSK) (tty m)))
  = (angle, c1) ->
  command_error c1 = false ->
  0 <= angle <= 180 ->
  exists m',
    bp_servo_setup (S fuel) m = Some (tt, m')
    /\ regs m' OC5R = 1250 * angle / 3500 + 62
    /\ regs m' OC5RS = 1250 * angle / 3500 + 62
    /\ regs m' PR2 = 1250
    /\ prescale_ratio (regs m' T2CON) = 256
    /\ Z.testbit (regs m' T2CON) TON = true
    /\ regs m' AUXPIN_RPOUT = OC5_IO
    /\ mode (state m') = AUX_MODE_PWM
    /\ pwm_frequency (state m') = pwm_frequency (state m)
    /\ pwm_duty_cycle (state m') = pwm_duty_cycle (state m)
    /\ tty m' = c1
    /\ terminal m' = terminal m ++ [Message BPMSG1255].
Proof.
  intros Hargs Hget Herror Hangle.
  destruct m as [[f d md] rf c t s w k]. cbn [state mode tty] in *.
  pose proof (servo_angle_in_range angle Hangle) as Hin.
  pose proof (servo_on_time_exact angle Hangle) as Hon.
  unfold servo_on_time in Hon.
  assert (Hnext : md = AUX_MODE_PWM ->
                  (cmdbuf c (Z.land (cmdstart c + 1) CMDLENMSK) =? 0)
                  = false).
  { intros Hmd. apply Z.eqb_neq. exact (Hargs Hmd). }
  unfold bp_servo_setup.
  destruct md; step; try rewrite (Hnext eq_refl); step;
    rewrite Hget; step; rewrite Herror, Hin; cbn [orb servoset]; step;
    eexists; (split; [reflexivity |]); step;
    (split; [exact Hon |]); (split; [exact Hon |]);
    (split; [reflexivity |]);
    (split;
     [unfold prescale_ratio;
      rewrite !testbit_assign_bit by (unfold TON, TCKPS1, TCKPS0; lia);
      reflexivity |]);
    (split; [apply testbit_assign_bit_on; unfold TON; lia |]);
    repeat split.
Qed.

(** When the command line gives no usable angle, [bp_servo_setup] clears
    [command_error], prompts for an angle within 0..180, programs it, and
    asks again; an entry that is negative ends the session with the last
    angle still being generated, in mode PWM. *)
Theorem bp_servo_setup_prompt_session
    (angle entry stop : Z) (fuel : nat) (m : machine) (c1 c2 c3 : console) :
  (mode (state m) = AUX_MODE_PWM ->
   cmdbuf (tty m) (Z.land (cmdstart (tty m) + 1) CMDLENMSK) <> 0) ->
  getint (consumewhitechars
            (set_cmdstart (Z.land (cmdstart (tty m) + 1) CMDLENMSK) (tty m)))
  = (angle, c1) ->
  command_error c1 = true
  \/ IEEE.ltb (IEEE.of_Z IEEE.binary32 180) (IEEE.of_Z IEEE.binary32 angle)
     = true ->
  getnumber 90 0 180 0 (set_command_error false c1) = (entry, c2) ->
  0 <= entry <= 180 ->
  getnumber (-1) 0 180 1 c2 = (stop, c3) ->
  IEEE.ltb (IEEE.of_Z IEEE.binary32 stop) (IEEE.of_Z IEEE.binary32 0)
  = true ->
  exists m',
    bp_servo_setup (S fuel) m = Some (tt, m')
    /\ regs m' OC5R = 1250 * entry / 3500 + 62
    /\ regs m' OC5RS = 1250 * entry / 3500 + 62
    /\ regs m' PR2 = 1250
    /\ regs m' AUXPIN_RPOUT = OC5_IO
    /\ mode (state m') = AUX_MODE_PWM
    /\ tty m' = c3
    /\ terminal m' =
       terminal m ++
       [Message BPMSG1254; Message BPMSG1255; Message bpBR].
Proof.
  intros Hargs Hget Hbad Hentry Hrange Hstop Hnegative.
  destruct m as [[f d md] rf c t s w k]. cbn [state mode tty] in *.
  pose proof (servo_on_time_exact entry Hrange) as Hon.
  unfold servo_on_time in Hon.
  assert (Hprompt :
    command_error c1
    || IEEE.ltb (IEEE.of_Z IEEE.binary32 180)
         (IEEE.of_Z IEEE.binary32 angle) = true).
  { apply orb_true_iff. exact Hbad. }
  assert (Hnext : md = AUX_MODE_PWM ->
                  (cmdbuf c (Z.land (cmdstart c + 1) CMDLENMSK) =? 0)
                  = false).
  { intros Hmd. apply Z.eqb_neq. exact (Hargs Hmd). }
  unfold bp_servo_setup.
  destruct md; step; try rewrite (Hnext eq_refl); step;
    rewrite Hget; step; rewrite Hprompt; step;
    rewrite Hentry; cbn [servoset]; step;
    rewrite Hstop; step; rewrite Hnegative; step;
    eexists; (split; [reflexivity |]); step;
    (split; [exact Hon |]); (split; [exact Hon |]);
    repeat (split; [reflexivity |]);
    rewrite <- !app_assoc; reflexivity.
Qed.

(** * Digital access to the AUX pins *)

Ltac pin_cases alternate_aux :=
  destruct alternate_aux as [| [[q | q |] | [q | q |] |] | q];
  cbn; try discriminate.

(** Driving the addressed pin high makes it an output with level high
    written to it; a following [bp_aux_pin_read] addresses the same pin,
    returns the level found on its line and leaves the pin an input, so
    the pin is no longer driven; the level written before is not
    rewritten. *)
Theorem bp_aux_pin_read_releases_pin
    (BUSPIRATEV3 : bool) (alternate_aux : Z) (line : pin -> bool)
    (b : board) (p : pin) :
  addressed BUSPIRATEV3 alternate_aux = Some p ->
  let driven := bp_aux_pin_set_high BUSPIRATEV3 alternate_aux b in
  let sampled := bp_aux_pin_read BUSPIRATEV3 alternate_aux line driven in
  pin_direction driven p = Z_of_bit OUTPUT
  /\ level driven p = HIGH
  /\ fst sampled = line p
  /\ pin_direction (snd sampled) p = Z_of_bit INPUT
  /\ level (snd sampled) p = HIGH
  /\ notices (snd sampled) = notices b ++ [BPMSG1040].
Proof.
  destruct b as [[st rf c t s w k] dir lev sent].
  unfold addressed, bp_aux_pin_set_high, bp_aux_pin_read.
  destruct BUSPIRATEV3.
  - destruct (alternate_aux =? 0); intros Hp; injection Hp as <-;
      cbn; repeat split.
  - pin_cases alternate_aux; intros Hp; injection Hp as <-;
      repeat split.
Qed.

Lemma same_timers_refl (b : board) : same_timers b b.
Proof. unfold same_timers. auto. Qed.

Lemma same_timers_trans (b1 b2 b3 : board) :
  same_timers b1 b2 -> same_timers b2 b3 -> same_timers b1 b3.
Proof.
  intros (Hs & Hc & Hr) (Hs' & Hc' & Hr').
  unfold same_timers. repeat split; try congruence.
  intros r Hne. rewrite Hr', Hr by assumption. reflexivity.
Qed.

Lemma same_timers_set_direction (p : pin) (v : bool) (b : board) :
  same_timers b (set_direction p v b).
Proof.
  destruct b as [[st rf c t s w k] dir lev sent].
  destruct p; unfold same_timers; cbn;
    (split; [reflexivity |]); (split; [reflexivity |]);
    intros r Hne; destruct r; (reflexivity || congruence).
Qed.

Lemma same_timers_set_level (p : pin) (v : bool) (b : board) :
  same_timers b (set_level p v b).
Proof. unfold same_timers. cbn. auto. Qed.

Lemma same_timers_notify (msg : pin_message) (b : board) :
  same_timers b (notify msg b).
Proof. unfold same_timers. cbn. auto. Qed.

Create HintDb pins.
#[local] Hint Resolve same_timers_refl same_timers_set_direction
  same_timers_set_level same_timers_notify : pins.

Ltac timers_kept :=
  repeat first
    [ solve [auto with pins]
    | eapply same_timers_trans; [| apply same_timers_notify]
    | eapply same_timers_trans; [| apply same_timers_set_level] ].

(** None of the four functions looks at the AUX mode or touches the timer,
    output compare or pin routing registers: with PWM or the servo signal
    on, driving or reading a pin leaves the generator as it is. *)
Theorem bp_aux_pin_functions_leave_timers
    (BUSPIRATEV3 : bool) (alternate_aux : Z) (line : pin -> bool)
    (b : board) :
  same_timers b (bp_aux_pin_set_high BUSPIRATEV3 alternate_aux b)
  /\ same_timers b (bp_aux_pin_set_low BUSPIRATEV3 alternate_aux b)
  /\ same_timers b
       (bp_aux_pin_set_high_impedance BUSPIRATEV3 alternate_aux b)
  /\ same_timers b
       (snd (bp_aux_pin_read BUSPIRATEV3 alternate_aux line b)).
Proof.
  unfold bp_aux_pin_set_high, bp_aux_pin_set_low,
    bp_aux_pin_set_high_impedance, bp_aux_pin_read.
  destruct BUSPIRATEV3.
  - destruct (alternate_aux =? 0); cbn [snd];
      (split; [| split; [| split]]); timers_kept.
  - split; [| split; [| split]].
    + destruct alternate_aux as [| [[q | q |] | [q | q |] |] | q];
        timers_kept.
    + destruct alternate_aux as [| [[q | q |] | [q | q |] |] | q];
        timers_kept.
    + destruct alternate_aux as [| [[q | q |] | [q | q |] |] | q];
        timers_kept.
    + destruct (Z.land alternate_aux 3)
        as [| [[q | q |] | [q | q |] |] | q];
        cbn [snd]; timers_kept.
Qed.

End Properties.

(** * The properties on the bench *)

Lemma setup_prescaler_divisor_tiers_witness :
  0 < 30 < 4000
  /\ exists m',
      @setup_prescaler_divisor scripted_console 30
        (bench [] (periodic 0 0 0)) = Some (250, m')
      /\ prescale_ratio (regs m' T2CON) = 64.
Proof.
  split; [lia |].
  destruct (@setup_prescaler_divisor_tiers scripted_console 30
              (bench [] (periodic 0 0 0)) ltac:(lia))
    as (divisor & m' & Hrun & _ & Htier & _).
  destruct (Htier ltac:(lia)) as [Hdivisor Hratio].
  exists m'. rewrite <- Hdivisor. split; assumption.
Defined.

Lemma bp_update_pwm_period_and_on_time_witness :
  0 < 1000 < 4000 /\ 0 <= 50 <= 99
  /\ exists m',
      @bp_update_pwm scripted_console bus_pirate_v3 1000 50
        (bench [] (periodic 0 0 0)) = Some (tt, m')
      /\ regs m' PR2 = 15 /\ regs m' OC5R = 7.
Proof.
  split; [lia |]. split; [lia |].
  destruct (@bp_update_pwm_period_and_on_time scripted_console bus_pirate_v3
              1000 50 (bench [] (periodic 0 0 0)) ltac:(lia) ltac:(lia))
    as (divisor & m' & Hrun & _ & _ & _ & _ & Hscenario).
  destruct (Hscenario eq_refl eq_refl) as (_ & Hperiod & Hcycle).
  exists m'. repeat split; assumption.
Defined.

Lemma bp_update_pwm_zero_disables_witness :
  0 < 1000 < 4000
  /\ exists m1 m2,
      @bp_update_pwm scripted_console bus_pirate_v3 1000 50
        (bench [] (periodic 0 0 0)) = Some (tt, m1)
      /\ @bp_update_pwm scripted_console bus_pirate_v3 0 50 m1
         = Some (tt, m2)
      /\ mode (state m2) = AUX_MODE_IO
      /\ regs m2 AUXPIN_RPOUT = 0.
Proof.
  split; [lia |].
  destruct (@bp_update_pwm_zero_disables scripted_console bus_pirate_v3
              1000 50 50 (bench [] (periodic 0 0 0)) ltac:(lia))
    as (m1 & m2 & Hrun1 & _ & _ & Hrun2 & Hmode & Hpin & _).
  exists m1, m2. repeat split; assumption.
Defined.

Lemma bp_update_pwm_round_trip_witness :
  0 < 440 < 4000 /\ 0 <= 25 <= 99
  /\ exists m',
      @bp_update_pwm scripted_console bus_pirate_v3 440 25
        (bench [] (periodic 0 0 0)) = Some (tt, m')
      /\ pwm_frequency (state m') = 440
      /\ pwm_duty_cycle (state m') = 25.
Proof.
  split; [lia |]. split; [lia |].
  exact (@bp_update_pwm_round_trip scripted_console bus_pirate_v3 440 25
           (bench [] (periodic 0 0 0)) ltac:(lia) ltac:(lia)).
Defined.

Lemma bp_frequency_counter_setup_refuses_during_pwm_witness :
  mode (state (bench_pwm [] (periodic 0 700 20000))) = AUX_MODE_PWM
  /\ exists m',
      @bp_frequency_counter_setup scripted_console bus_pirate_v3
        (bench_pwm [] (periodic 0 700 20000)) = Some (tt, m')
      /\ terminal m' = [Message BPMSG1037]
      /\ state m' = state (bench_pwm [] (periodic 0 700 20000))
      /\ regs m' = regs (bench_pwm [] (periodic 0 700 20000))
      /\ windows m' = 0%nat.
Proof.
  split; [reflexivity |].
  destruct (@bp_frequency_counter_setup_refuses_during_pwm scripted_console
              bus_pirate_v3 (bench_pwm [] (periodic 0 700 20000)) eq_refl)
    as (m' & Hrun & Hterm & Hstate & Hregs & _ & Hwin & _).
  exists m'. repeat split; assumption.
Defined.

Lemma frequency_counter_autorange_decision_witness :
  mode (state (bench [] (periodic 0x4000 0 0))) <> AUX_MODE_PWM
  /\ window_count (aux_signal (bench [] (periodic 0x4000 0 0)))
       (windows (bench [] (periodic 0x4000 0 0))) 0x803A = 0x4000
  /\ 0x3FFF < 0x4000
  /\ exists m',
      @bp_frequency_counter_setup scripted_console bus_pirate_v3
        (bench [] (periodic 0x4000 0 0)) = Some (tt, m')
      /\ windows m' = 1%nat
      /\ terminal m' =
         [Message BPMSG1038; bp_write_dec_dword_friendly 4194304;
          Message MSG_PWM_HZ_MARKER].
Proof.
  assert (Hmode : mode (state (bench [] (periodic 0x4000 0 0)))
                  <> AUX_MODE_PWM) by discriminate.
  split; [exact Hmode |]. split; [reflexivity |]. split; [lia |].
  destruct (@frequency_counter_autorange_decision scripted_console
              bus_pirate_v3 (bench [] (periodic 0x4000 0 0)) 0x4000
              Hmode eq_refl)
    as (_ & Hhigh & _).
  destruct (Hhigh ltac:(lia)) as (m1 & m' & _ & _ & Hrun & Hwin & Hterm).
  exists m'. repeat split; assumption.
Defined.

Lemma result_after {con : Console} {A : Type}
    (c : M A) (m : machine) (a : A) :
  result c m = Some a -> c m = Some (a, after c m).
Proof.
  unfold result, after. destruct (c m) as [[a' m'] |]; simpl.
  - intros H. injection H as ->. reflexivity.
  - discriminate.
Defined.

Lemma report_period_decimal_places_witness :
  let m := bench [] (periodic 3 700 400001) in
  let m1 := after (@frequency_counter_autorange scripted_console
                     bus_pirate_v4) m in
  let sample :=
    @bind scripted_console _ _ (say BPMSG1245)
      (fun _ => @average_sample_frequency scripted_console bus_pirate_v4
                  (to_uint16 700)) in
  let m2 := after sample m1 in
  mode (state m) <> AUX_MODE_PWM
  /\ @frequency_counter_autorange scripted_console bus_pirate_v4 m
     = Some (700, m1)
  /\ 0 < 700 <= 3999
  /\ sample m1 = Some (400001, m2)
  /\ exists number m',
      @bp_frequency_counter_setup scripted_console bus_pirate_v4 m
      = Some (tt, m')
      /\ terminal m' = terminal m2 ++ number ++ [Message MSG_PWM_HZ_MARKER]
      /\ decimal_places number = Some 5%nat.
Proof.
  intros m m1 sample m2.
  assert (Hmode : mode (state m) <> AUX_MODE_PWM)
    by (vm_compute; discriminate).
  assert (Hresult1 :
    result (@frequency_counter_autorange scripted_console bus_pirate_v4) m
    = Some 700) by (vm_compute; reflexivity).
  pose proof (result_after _ m 700 Hresult1) as Hrange.
  assert (Hresult2 :
    result sample m1 = Some 400001) by (vm_compute; reflexivity).
  pose proof (result_after _ m1 400001 Hresult2) as Hsample.
  split; [exact Hmode |]. split; [exact Hrange |]. split; [lia |].
  split; [exact Hsample |].
  destruct (@report_period_decimal_places scripted_console bus_pirate_v4
              m 700 400001 m1 m2 Hmode Hrange ltac:(lia) Hsample)
    as (number & m' & Hrun & Hterm & Hfive & _).
  exists number, m'. split; [exact Hrun |]. split; [exact Hterm |].
  apply Hfive. lia.
Defined.

(** C8 as stated fails: with an average period of exactly 20000 ticks the
    frequency, 800 Hz, is printed with two decimal places, not one. *)
Lemma period_20000_is_not_printed_with_one_decimal_place :
  let m := bench [] (periodic 0 2 20000) in
  let m1 := after (@frequency_counter_autorange scripted_console
                     bus_pirate_v3) m in
  let sample :=
    @bind scripted_console _ _ (say BPMSG1245)
      (fun _ => @average_sample_frequency scripted_console bus_pirate_v3
                  (to_uint16 2)) in
  let m' := after (@bp_frequency_counter_setup scripted_console
                     bus_pirate_v3) m in
  @frequency_counter_autorange scripted_console bus_pirate_v3 m
  = Some (2, m1)
  /\ result sample m1 = Some 20000
  /\ @bp_frequency_counter_setup scripted_console bus_pirate_v3 m
     = Some (tt, m')
  /\ terminal m' =
     [Message BPMSG1038; Message BPMSG1245; Message BPMSG1245;
      bp_write_dec_dword_friendly 800; UART1TX "."; UART1TX "0";
      bp_write_dec_byte 0; Message MSG_PWM_HZ_MARKER]
  /\ text (terminal m') = "800.00"%string
  /\ decimal_places (terminal m') = Some 2%nat
  /\ decimal_places (terminal m') <> Some 1%nat.
Proof.
  intros m m1 sample m'.
  assert (Hresult1 :
    result (@frequency_counter_autorange scripted_console bus_pirate_v3) m
    = Some 2) by (vm_compute; reflexivity).
  assert (Hresult :
    result (@bp_frequency_counter_setup scripted_console bus_pirate_v3) m
    = Some tt) by (vm_compute; reflexivity).
  assert (Hterm : terminal m' =
     [Message BPMSG1038; Message BPMSG1245; Message BPMSG1245;
      bp_write_dec_dword_friendly 800; UART1TX "."; UART1TX "0";
      bp_write_dec_byte 0; Message MSG_PWM_HZ_MARKER])
    by (vm_compute; reflexivity).
  split; [exact (result_after _ m 2 Hresult1) |].
  split; [vm_compute; reflexivity |].
  split; [exact (result_after _ m tt Hresult) |].
  split; [exact Hterm |].
  rewrite Hterm.
  split; [vm_compute; reflexivity |].
  split; [vm_compute; reflexivity |].
  vm_compute. discriminate.
Qed.

Lemma report_period_20000_two_decimal_places_witness :
  let m := bench [] (periodic 0 2 20000) in
  let m1 := after (@frequency_counter_autorange scripted_console
                     bus_pirate_v4) m in
  let sample :=
    @bind scripted_console _ _ (say BPMSG1245)
      (fun _ => @average_sample_frequency scripted_console bus_pirate_v4
                  (to_uint16 2)) in
  let m2 := after sample m1 in
  mode (state m) <> AUX_MODE_PWM
  /\ @frequency_counter_autorange scripted_console bus_pirate_v4 m
     = Some (2, m1)
  /\ 0 < 2 <= 3999
  /\ sample m1 = Some (20000, m2)
  /\ exists q rest m',
      @bp_frequency_counter_setup scripted_console bus_pirate_v4 m
      = Some (tt, m')
      /\ q = 80000
      /\ decimal_places
           (bp_write_dec_dword_friendly (q / 100) :: UART1TX "." :: rest)
         = Some 2%nat.
Proof.
  intros m m1 sample m2.
  assert (Hmode : mode (state m) <> AUX_MODE_PWM)
    by (vm_compute; discriminate).
  assert (Hresult1 :
    result (@frequency_counter_autorange scripted_console bus_pirate_v4) m
    = Some 2) by (vm_compute; reflexivity).
  pose proof (result_after _ m 2 Hresult1) as Hrange.
  assert (Hresult2 :
    result sample m1 = Some 20000) by (vm_compute; reflexivity).
  pose proof (result_after _ m1 20000 Hresult2) as Hsample.
  split; [exact Hmode |]. split; [exact Hrange |]. split; [lia |].
  split; [exact Hsample |].
  destruct (@report_period_20000_two_decimal_places scripted_console
              bus_pirate_v4 m 2 m1 m2 Hmode Hrange ltac:(lia) Hsample)
    as (q & rest & m' & Hq & Hrun & _ & Hplaces).
  exists q, rest, m'. split; [exact Hrun |]. split; [| exact Hplaces].
  rewrite Hq. vm_compute. reflexivity.
Defined.

Lemma servoset_on_time_monotone_witness :
  0 <= 45 <= 90 /\ 90 <= 180
  /\ exists ma mb,
      @servoset scripted_console bus_pirate_v3 1 false
        (IEEE.of_Z IEEE.binary32 45) (bench [] (periodic 0 0 0))
      = Some (tt, ma)
      /\ @servoset scripted_console bus_pirate_v3 1 false
           (IEEE.of_Z IEEE.binary32 90) (bench [] (periodic 0 0 0))
         = Some (tt, mb)
      /\ regs ma OC5R = 78
      /\ regs mb OC5R = 94
      /\ regs ma OC5R <= regs mb OC5R.
Proof.
  split; [lia |]. split; [lia |].
  destruct (@servoset_on_time_monotone scripted_console bus_pirate_v3
              45 90 (bench [] (periodic 0 0 0)) ltac:(lia) ltac:(lia))
    as (ma & mb & Hruna & Hrunb & _ & _ & Hona & Honb & Hle & _).
  exists ma, mb. split; [exact Hruna |]. split; [exact Hrunb |].
  split; [exact Hona |]. split; [exact Honb | exact Hle].
Defined.


(** C4.  The round trip fails through [bp_pwm_setup].  Given [1000 50] on
    the command line after power-on, it programs PWM without prompting as
    [bp_update_pwm 1000 50] does (period register 15, on-time 7, mode PWM),
    yet the recorded frequency and duty cycle read back 0 and 0, not 1000
    and 50; [bp_update_pwm 1000 50] from the same machine records both. *)
Theorem bp_pwm_setup_1000_50_reads_back_0_0 :
  exists m' mu,
    @bp_pwm_setup scripted_console bus_pirate_v3
      (bench [1000; 50] (periodic 0 0 0)) = Some (tt, m')
    /\ terminal m' = [Message BPMSG1034]
    /\ mode (state m') = AUX_MODE_PWM
    /\ regs m' PR2 = 15
    /\ regs m' OC5R = 7
    /\ regs m' OC5RS = 7
    /\ pwm_frequency (state m') = 0
    /\ pwm_duty_cycle (state m') = 0
    /\ @bp_update_pwm scripted_console bus_pirate_v3 1000 50
         (bench [1000; 50] (periodic 0 0 0)) = Some (tt, mu)
    /\ mode (state mu) = AUX_MODE_PWM
    /\ regs mu PR2 = 15
    /\ regs mu OC5R = 7
    /\ regs mu OC5RS = 7
    /\ pwm_frequency (state mu) = 1000
    /\ pwm_duty_cycle (state mu) = 50.
Proof.
  exists (after (@bp_pwm_setup scripted_console bus_pirate_v3)
            (bench [1000; 50] (periodic 0 0 0))),
         (after (@bp_update_pwm scripted_console bus_pirate_v3 1000 50)
            (bench [1000; 50] (periodic 0 0 0))).
  split; [apply result_after; vm_compute; reflexivity |].
  do 7 (split; [vm_compute; reflexivity |]).
  split; [apply result_after; vm_compute; reflexivity |].
  do 5 (split; [vm_compute; reflexivity |]).
  vm_compute; reflexivity.
Qed.

(** * The further properties on the bench *)

#[local] Existing Instance scripted_console.

Lemma bp_update_duty_cycle_while_off_witness :
  pwm_frequency (state (bench [] (periodic 0 0 0))) = 0
  /\ exists m',
      @bp_update_duty_cycle scripted_console bus_pirate_v3 30
        (bench [] (periodic 0 0 0)) = Some (tt, m')
      /\ mode (state m') = AUX_MODE_IO
      /\ pwm_duty_cycle (state m') = 30.
Proof.
  split; [reflexivity |].
  destruct (@bp_update_duty_cycle_while_off scripted_console bus_pirate_v3
              30 (bench [] (periodic 0 0 0)) eq_refl)
    as (m' & Hrun & Hstate & _).
  exists m'. rewrite Hstate. split; [exact Hrun |]. split; reflexivity.
Defined.

Lemma bp_update_pwm_above_16000_witness :
  16000 < 20000 < 65536 /\ 0 < 50 <= 99
  /\ exists m',
      @bp_update_pwm scripted_console bus_pirate_v3 20000 50
        (bench [] (periodic 0 0 0)) = Some (tt, m')
      /\ regs m' PR2 = 65535
      /\ regs m' OC5R = 654.
Proof.
  split; [lia |]. split; [lia |].
  destruct (@bp_update_pwm_above_16000 scripted_console bus_pirate_v3
              20000 50 (bench [] (periodic 0 0 0)) ltac:(lia) ltac:(lia))
    as (m' & Hrun & Hperiod & Hcycle & _).
  exists m'. split; [exact Hrun |]. split; [exact Hperiod | exact Hcycle].
Defined.

Lemma bp_update_pwm_on_time_within_period_witness :
  0 < 1000 < 4000 /\ 0 <= 100 <= 100
  /\ exists m',
      @bp_update_pwm scripted_console bus_pirate_v3 1000 100
        (bench [] (periodic 0 0 0)) = Some (tt, m')
      /\ regs m' OC5R = regs m' PR2.
Proof.
  split; [lia |]. split; [lia |].
  destruct (@bp_update_pwm_on_time_within_period scripted_console
              bus_pirate_v3 1000 100 (bench [] (periodic 0 0 0))
              ltac:(lia) ltac:(lia))
    as (m' & Hrun & _ & _ & _ & _ & Hfull).
  exists m'. split; [exact Hrun | exact (Hfull eq_refl)].
Defined.

Lemma bp_pwm_setup_toggles_off_witness :
  mode (state (bench_pwm [] (periodic 0 0 0))) = AUX_MODE_PWM
  /\ cmdbuf (tty (bench_pwm [] (periodic 0 0 0)))
       (Z.land (cmdstart (tty (bench_pwm [] (periodic 0 0 0))) + 1)
          CMDLENMSK) = 0
  /\ exists m',
      @bp_pwm_setup scripted_console bus_pirate_v3
        (bench_pwm [] (periodic 0 0 0)) = Some (tt, m')
      /\ mode (state m') = AUX_MODE_IO
      /\ regs m' AUXPIN_RPOUT = 0
      /\ regs m' PR2 = 15.
Proof.
  split; [reflexivity |]. split; [reflexivity |].
  destruct (@bp_pwm_setup_toggles_off scripted_console bus_pirate_v3
              (bench_pwm [] (periodic 0 0 0)) eq_refl eq_refl)
    as (m' & Hrun & Hmode & Hpin & _ & _ & _ & Hperiod & _).
  exists m'. split; [exact Hrun |]. split; [exact Hmode |].
  split; [exact Hpin |]. rewrite Hperiod. reflexivity.
Defined.

Lemma bp_pwm_setup_from_command_line_witness :
  let m := bench [1000; 50] (periodic 0 0 0) in
  let start :=
    consumewhitechars
      (set_cmdstart (Z.land (cmdstart (tty m) + 1) CMDLENMSK) (tty m)) in
  let c1 := snd (getint start) in
  let c2 := snd (getint (consumewhitechars c1)) in
  (mode (state m) = AUX_MODE_PWM ->
   cmdbuf (tty m) (Z.land (cmdstart (tty m) + 1) CMDLENMSK) <> 0)
  /\ getint start = (1000, c1)
  /\ getint (consumewhitechars c1) = (50, c2)
  /\ 0 < 1000 < 4000 /\ 0 < 50 < 100
  /\ exists m',
      @bp_pwm_setup scripted_console bus_pirate_v3 m = Some (tt, m')
      /\ mode (state m') = AUX_MODE_PWM
      /\ pwm_frequency (state m') = 0
      /\ terminal m' = [Message BPMSG1034].
Proof.
  intros m start c1 c2.
  assert (Hargs : mode (state m) = AUX_MODE_PWM ->
                  cmdbuf (tty m) (Z.land (cmdstart (tty m) + 1) CMDLENMSK)
                  <> 0) by (intros Hmode; discriminate Hmode).
  split; [exact Hargs |]. split; [reflexivity |]. split; [reflexivity |].
  split; [lia |]. split; [lia |].
  destruct (@bp_pwm_setup_from_command_line scripted_console bus_pirate_v3
              1000 50 m c1 c2 Hargs eq_refl eq_refl ltac:(lia) ltac:(lia))
    as (m' & mu & Hrun & _ & _ & _ & _ & _ & _ & _ & Hmode & Hfrequency
        & _ & _ & Hterm).
  exists m'. split; [exact Hrun |]. split; [exact Hmode |].
  split; [exact Hfrequency | exact Hterm].
Defined.

Lemma bp_pwm_setup_prompts_witness :
  let m := bench [5000; 50; 440; 25] (periodic 0 0 0) in
  let start :=
    consumewhitechars
      (set_cmdstart (Z.land (cmdstart (tty m) + 1) CMDLENMSK) (tty m)) in
  let c1 := snd (getint start) in
  let c2 := snd (getint (consumewhitechars c1)) in
  let c3 := snd (getnumber 50 1 4000 0 (set_command_error false c2)) in
  let c4 := snd (getnumber 50 0 99 0 c3) in
  (mode (state m) = AUX_MODE_PWM ->
   cmdbuf (tty m) (Z.land (cmdstart (tty m) + 1) CMDLENMSK) <> 0)
  /\ getint start = (5000, c1)
  /\ getint (consumewhitechars c1) = (50, c2)
  /\ ~ 0 < to_uint16 5000 < 4000
  /\ getnumber 50 1 4000 0 (set_command_error false c2) = (440, c3)
  /\ getnumber 50 0 99 0 c3 = (25, c4)
  /\ 1 <= 440 <= 4000 /\ 0 <= 25 <= 99
  /\ exists m',
      @bp_pwm_setup scripted_console bus_pirate_v3 m = Some (tt, m')
      /\ mode (state m') = AUX_MODE_PWM
      /\ terminal m' =
         [Message BPMSG1029; Message BPMSG1030; Message BPMSG1033;
          Message BPMSG1034].
Proof.
  intros m start c1 c2 c3 c4.
  assert (Hargs : mode (state m) = AUX_MODE_PWM ->
                  cmdbuf (tty m) (Z.land (cmdstart (tty m) + 1) CMDLENMSK)
                  <> 0) by (intros Hmode; discriminate Hmode).
  assert (Hrange : ~ 0 < to_uint16 5000 < 4000)
    by (change (to_uint16 5000) with 5000; lia).
  split; [exact Hargs |]. split; [reflexivity |]. split; [reflexivity |].
  split; [exact Hrange |]. split; [reflexivity |]. split; [reflexivity |].
  split; [lia |]. split; [lia |].
  destruct (@bp_pwm_setup_prompts scripted_console bus_pirate_v3
              5000 50 440 25 m c1 c2 c3 c4 Hargs eq_refl eq_refl Hrange
              eq_refl eq_refl ltac:(lia) ltac:(lia))
    as (m' & mu & Hrun & _ & _ & _ & _ & _ & _ & Hmode & _ & Hterm).
  exists m'. split; [exact Hrun |]. split; [exact Hmode | exact Hterm].
Defined.

Lemma bp_update_duty_cycle_after_bp_pwm_setup_witness :
  pwm_frequency (state (bench [1000; 50] (periodic 0 0 0))) = 0
  /\ exists m1 m2,
      @bp_pwm_setup scripted_console bus_pirate_v3
        (bench [1000; 50] (periodic 0 0 0)) = Some (tt, m1)
      /\ @bp_update_duty_cycle scripted_console bus_pirate_v3 30 m1
         = Some (tt, m2)
      /\ mode (state m2) = AUX_MODE_IO
      /\ regs m2 AUXPIN_RPOUT = 0.
Proof.
  split; [reflexivity |].
  destruct (@bp_update_duty_cycle_after_bp_pwm_setup scripted_console
              bus_pirate_v3 30 (bench [1000; 50] (periodic 0 0 0)) eq_refl)
    as (m1 & m2 & Hrun1 & Hrun2 & Hmode & _ & Hpin & _).
  exists m1, m2. split; [exact Hrun1 |]. split; [exact Hrun2 |].
  split; [exact Hmode | exact Hpin].
Defined.

Ltac captures_arrive :=
  intros i _ Hnone;
  cbv beta iota zeta delta
    [bench power_on aux_signal captures periodic input_capture] in Hnone;
  discriminate Hnone.

Lemma average_sample_frequency_telescopes_witness :
  let m := bench [] (periodic 0 2 20000) in
  0 < 2
  /\ (forall i, (i <= Z.to_nat 2)%nat ->
                input_capture (aux_signal m) (captures m + i) <> None)
  /\ exists m',
      @average_sample_frequency scripted_console bus_pirate_v3 2 m
      = Some (20000, m')
      /\ captures m' = 3%nat.
Proof.
  intros m.
  assert (Harrive : forall i, (i <= Z.to_nat 2)%nat ->
            input_capture (aux_signal m) (captures m + i) <> None)
    by captures_arrive.
  split; [lia |]. split; [exact Harrive |].
  destruct (@average_sample_frequency_telescopes scripted_console
              bus_pirate_v3 2 m ltac:(lia) Harrive)
    as (first & last & m' & Hfirst & Hlast & Hrun & Hcaptures & _).
  assert (Hfirst' : first = 0)
    by (vm_compute in Hfirst; injection Hfirst as <-; reflexivity).
  assert (Hlast' : last = 40000)
    by (vm_compute in Hlast; injection Hlast as <-; reflexivity).
  rewrite Hfirst', Hlast' in Hrun.
  exists m'. split; [exact Hrun | exact Hcaptures].
Defined.

Lemma average_sample_frequency_blocks_witness :
  let m := bench [] (stops_after 1 (periodic 0 2 20000)) in
  (exists i, (i <= Z.to_nat 2)%nat
             /\ input_capture (aux_signal m) (captures m + i) = None)
  /\ @average_sample_frequency scripted_console bus_pirate_v3 2 m = None.
Proof.
  intros m.
  assert (Hstops : exists i, (i <= Z.to_nat 2)%nat
             /\ input_capture (aux_signal m) (captures m + i) = None)
    by (exists 1%nat; split; [vm_compute; lia | reflexivity]).
  split; [exact Hstops |].
  exact (@average_sample_frequency_blocks scripted_console bus_pirate_v3
           2 m Hstops).
Defined.

Lemma bp_frequency_counter_setup_releases_witness :
  let m := bench [] (periodic 0 2 20000) in
  let m' := after (@bp_frequency_counter_setup scripted_console
                     bus_pirate_v3) m in
  mode (state m) <> AUX_MODE_PWM
  /\ @bp_frequency_counter_setup scripted_console bus_pirate_v3 m
     = Some (tt, m')
  /\ regs m' T2CON = 0
  /\ regs m' AUXPIN_DIR = 1
  /\ state m' = state m.
Proof.
  intros m m'.
  assert (Hmode : mode (state m) <> AUX_MODE_PWM)
    by (vm_compute; discriminate).
  assert (Hresult :
    result (@bp_frequency_counter_setup scripted_console bus_pirate_v3) m
    = Some tt) by (vm_compute; reflexivity).
  pose proof (result_after _ m tt Hresult) as Hrun.
  split; [exact Hmode |]. split; [exact Hrun |].
  destruct (@bp_frequency_counter_setup_releases scripted_console
              bus_pirate_v3 m m' Hmode Hrun)
    as (Ht2 & _ & _ & Hdir & Hstate & _).
  split; [exact Ht2 |]. split; [exact Hdir | exact Hstate].
Defined.

Lemma bp_frequency_counter_setup_blocks_witness :
  let m := bench [] (stops_after 1 (periodic 0 2 20000)) in
  mode (state m) <> AUX_MODE_PWM
  /\ window_count (aux_signal m) (windows m) 0x803A <= 0x3FFF
  /\ 0 < window_count (aux_signal m) (S (windows m)) 0x800A <= 3999
  /\ (exists i,
        (i <= Z.to_nat
                (window_count (aux_signal m) (S (windows m)) 0x800A))%nat
        /\ input_capture (aux_signal m) (captures m + i) = None)
  /\ @bp_frequency_counter_setup scripted_console bus_pirate_v3 m = None.
Proof.
  intros m.
  assert (Hmode : mode (state m) <> AUX_MODE_PWM)
    by (vm_compute; discriminate).
  assert (Hcoarse : window_count (aux_signal m) (windows m) 0x803A
                    <= 0x3FFF) by (vm_compute; discriminate).
  assert (Hfine : 0 < window_count (aux_signal m) (S (windows m)) 0x800A
                  <= 3999)
    by (split; [reflexivity | vm_compute; discriminate]).
  assert (Hstops : exists i,
        (i <= Z.to_nat
                (window_count (aux_signal m) (S (windows m)) 0x800A))%nat
        /\ input_capture (aux_signal m) (captures m + i) = None)
    by (exists 1%nat; split; [vm_compute; lia | reflexivity]).
  split; [exact Hmode |]. split; [exact Hcoarse |]. split; [exact Hfine |].
  split; [exact Hstops |].
  exact (@bp_frequency_counter_setup_blocks scripted_console bus_pirate_v3
           m Hmode Hcoarse Hfine Hstops).
Defined.

Lemma bp_frequency_counter_setup_without_sampling_witness :
  let m := bench [] (stops_after 0 (periodic 0 0 0)) in
  mode (state m) <> AUX_MODE_PWM
  /\ window_count (aux_signal m) (windows m) 0x803A <= 0x3FFF
  /\ (window_count (aux_signal m) (S (windows m)) 0x800A = 0
      \/ 3999 < window_count (aux_signal m) (S (windows m)) 0x800A)
  /\ exists m',
      @bp_frequency_counter_setup scripted_console bus_pirate_v3 m
      = Some (tt, m')
      /\ terminal m' =
         [Message BPMSG1038; Message BPMSG1245;
          Message MSG_PWM_FREQUENCY_TOO_LOW]
      /\ captures m' = 0%nat.
Proof.
  intros m.
  assert (Hmode : mode (state m) <> AUX_MODE_PWM)
    by (vm_compute; discriminate).
  assert (Hcoarse : window_count (aux_signal m) (windows m) 0x803A
                    <= 0x3FFF) by (vm_compute; discriminate).
  assert (Hfine : window_count (aux_signal m) (S (windows m)) 0x800A = 0
                  \/ 3999 < window_count (aux_signal m) (S (windows m))
                              0x800A)
    by (left; reflexivity).
  split; [exact Hmode |]. split; [exact Hcoarse |]. split; [exact Hfine |].
  destruct (@bp_frequency_counter_setup_without_sampling scripted_console
              bus_pirate_v3 m Hmode Hcoarse Hfine)
    as (m' & Hrun & Hterm & _ & Hcaptures).
  exists m'. split; [exact Hrun |]. split; [exact Hterm | exact Hcaptures].
Defined.

Lemma bp_measure_frequency_autoranges_witness :
  let m := bench [] (periodic 300 0 0) in
  window_count (aux_signal m) (windows m) 0x803A = 300
  /\ exists m',
      @bp_measure_frequency scripted_console bus_pirate_v3 m = Some (76800, m')
      /\ windows m' = 1%nat
      /\ regs m' T2CON = 0.
Proof.
  intros m. split; [reflexivity |].
  destruct (@bp_measure_frequency_autoranges scripted_console bus_pirate_v3 m 300 eq_refl)
    as (frequency & m' & Hrun & Hhigh & _ & _ & _ & _ & Ht2 & _).
  destruct (Hhigh ltac:(lia)) as (_ & Hwindows & Hexact).
  rewrite (Hexact ltac:(reflexivity)) in Hrun.
  exists m'. split; [exact Hrun |]. split; [exact Hwindows | exact Ht2].
Defined.

Lemma bp_measure_frequency_during_pwm_witness :
  0 < 1000 < 4000 /\ 0 <= 50 <= 99
  /\ exists m1 f m2,
      @bp_update_pwm scripted_console bus_pirate_v3 1000 50
        (bench [] (periodic 0 1000 0)) = Some (tt, m1)
      /\ @bp_measure_frequency scripted_console bus_pirate_v3 m1 = Some (f, m2)
      /\ regs m2 T2CON = 0
      /\ regs m2 PR2 = 65535
      /\ mode (state m2) = AUX_MODE_PWM.
Proof.
  split; [lia |]. split; [lia |].
  destruct (@bp_measure_frequency_during_pwm scripted_console bus_pirate_v3
              1000 50 (bench [] (periodic 0 1000 0)) ltac:(lia) ltac:(lia))
    as (m1 & f & m2 & Hrun1 & _ & _ & Hrun2 & Ht2 & Hperiod & Hmode & _).
  exists m1, f, m2. split; [exact Hrun1 |]. split; [exact Hrun2 |].
  split; [exact Ht2 |]. split; [exact Hperiod | exact Hmode].
Defined.

Lemma bp_measure_frequency_coarser_than_autorange_witness :
  let m := bench [] (periodic 300 76543 0) in
  window_count (aux_signal m) (windows m) 0x803A = 300
  /\ 0xFF < 300 <= 0x3FFF
  /\ exists m1 m2,
      @bp_measure_frequency scripted_console bus_pirate_v3 m = Some (300 * 256, m1)
      /\ @frequency_counter_autorange scripted_console bus_pirate_v3 m
         = Some (window_count (aux_signal m) (S (windows m)) 0x800A, m2)
      /\ window_count (aux_signal m) (S (windows m)) 0x800A = 76543.
Proof.
  intros m. split; [reflexivity |]. split; [lia |].
  destruct (@bp_measure_frequency_coarser_than_autorange scripted_console
              bus_pirate_v3 m 300 eq_refl ltac:(lia))
    as (m1 & m2 & Hrun1 & _ & Hrun2 & _).
  exists m1, m2. split; [exact Hrun1 |]. split; [exact Hrun2 |].
  reflexivity.
Defined.

Lemma bp_servo_setup_toggles_off_witness :
  let m := bench_pwm [] (periodic 0 0 0) in
  mode (state m) = AUX_MODE_PWM
  /\ cmdbuf (tty m) (Z.land (cmdstart (tty m) + 1) CMDLENMSK) = 0
  /\ exists m',
      @bp_servo_setup scripted_console bus_pirate_v3 0 m = Some (tt, m')
      /\ mode (state m') = AUX_MODE_IO
      /\ regs m' AUXPIN_RPOUT = 0.
Proof.
  intros m. split; [reflexivity |]. split; [reflexivity |].
  destruct (@bp_servo_setup_toggles_off scripted_console bus_pirate_v3
              0 m eq_refl eq_refl)
    as (m' & Hrun & Hmode & Hpin & _).
  exists m'. split; [exact Hrun |]. split; [exact Hmode | exact Hpin].
Defined.

Lemma bp_servo_setup_from_command_line_witness :
  let m := bench [90] (periodic 0 0 0) in
  let start :=
    consumewhitechars
      (set_cmdstart (Z.land (cmdstart (tty m) + 1) CMDLENMSK) (tty m)) in
  let c1 := snd (getint start) in
  (mode (state m) = AUX_MODE_PWM ->
   cmdbuf (tty m) (Z.land (cmdstart (tty m) + 1) CMDLENMSK) <> 0)
  /\ getint start = (90, c1)
  /\ command_error c1 = false
  /\ 0 <= 90 <= 180
  /\ exists m',
      @bp_servo_setup scripted_console bus_pirate_v3 1 m = Some (tt, m')
      /\ regs m' OC5R = 94
      /\ regs m' PR2 = 1250
      /\ mode (state m') = AUX_MODE_PWM.
Proof.
  intros m start c1.
  assert (Hargs : mode (state m) = AUX_MODE_PWM ->
                  cmdbuf (tty m) (Z.land (cmdstart (tty m) + 1) CMDLENMSK)
                  <> 0) by (intros Hmode; discriminate Hmode).
  split; [exact Hargs |]. split; [reflexivity |]. split; [reflexivity |].
  split; [lia |].
  destruct (@bp_servo_setup_from_command_line scripted_console bus_pirate_v3
              90 0 m c1 Hargs eq_refl eq_refl ltac:(lia))
    as (m' & Hrun & Hcompare & _ & Hperiod & _ & _ & _ & Hmode & _).
  exists m'. split; [exact Hrun |]. split; [exact Hcompare |].
  split; [exact Hperiod | exact Hmode].
Defined.

Lemma bp_servo_setup_prompt_session_witness :
  let m := bench [200; 45; -1] (periodic 0 0 0) in
  let start :=
    consumewhitechars
      (set_cmdstart (Z.land (cmdstart (tty m) + 1) CMDLENMSK) (tty m)) in
  let c1 := snd (getint start) in
  let c2 := snd (getnumber 90 0 180 0 (set_command_error false c1)) in
  let c3 := snd (getnumber (-1) 0 180 1 c2) in
  (mode (state m) = AUX_MODE_PWM ->
   cmdbuf (tty m) (Z.land (cmdstart (tty m) + 1) CMDLENMSK) <> 0)
  /\ getint start = (200, c1)
  /\ (command_error c1 = true
      \/ IEEE.ltb (IEEE.of_Z IEEE.binary32 180) (IEEE.of_Z IEEE.binary32 200)
         = true)
  /\ getnumber 90 0 180 0 (set_command_error false c1) = (45, c2)
  /\ 0 <= 45 <= 180
  /\ getnumber (-1) 0 180 1 c2 = (-1, c3)
  /\ IEEE.ltb (IEEE.of_Z IEEE.binary32 (-1)) (IEEE.of_Z IEEE.binary32 0)
     = true
  /\ exists m',
      @bp_servo_setup scripted_console bus_pirate_v3 1 m = Some (tt, m')
      /\ regs m' OC5R = 78
      /\ mode (state m') = AUX_MODE_PWM
      /\ terminal m' =
         [Message BPMSG1254; Message BPMSG1255; Message bpBR].
Proof.
  intros m start c1 c2 c3.
  assert (Hargs : mode (state m) = AUX_MODE_PWM ->
                  cmdbuf (tty m) (Z.land (cmdstart (tty m) + 1) CMDLENMSK)
                  <> 0) by (intros Hmode; discriminate Hmode).
  assert (Hbad : command_error c1 = true
      \/ IEEE.ltb (IEEE.of_Z IEEE.binary32 180) (IEEE.of_Z IEEE.binary32 200)
         = true) by (right; reflexivity).
  split; [exact Hargs |]. split; [reflexivity |]. split; [exact Hbad |].
  split; [reflexivity |]. split; [lia |]. split; [reflexivity |].
  split; [reflexivity |].
  destruct (@bp_servo_setup_prompt_session scripted_console bus_pirate_v3
              200 45 (-1) 0 m c1 c2 c3 Hargs eq_refl Hbad eq_refl
              ltac:(lia) eq_refl eq_refl)
    as (m' & Hrun & Hcompare & _ & _ & _ & Hmode & _ & Hterm).
  exists m'. split; [exact Hrun |]. split; [exact Hcompare |].
  split; [exact Hmode | exact Hterm].
Defined.

Lemma bp_aux_pin_read_releases_pin_witness :
  let b := bench_board [] (periodic 0 0 0) in
  let line := fun p : pin => pin_beq p AUX1 in
  let driven := bp_aux_pin_set_high false 2 b in
  addressed false 2 = Some AUX1
  /\ pin_direction driven AUX1 = 0
  /\ fst (bp_aux_pin_read false 2 line driven) = true
  /\ pin_direction (snd (bp_aux_pin_read false 2 line driven)) AUX1 = 1.
Proof.
  intros b line driven. split; [reflexivity |].
  destruct (@bp_aux_pin_read_releases_pin scripted_console false 2 line b
              AUX1 eq_refl)
    as (Hout & _ & Hline & Hin & _).
  split; [exact Hout |]. split; [exact Hline | exact Hin].
Defined.
